(** * YT_Performance_Model.py: the Streamlit revenue predictor

    A shallow embedding of [src/YT_Performance_Model.py].  Streamlit runs the
    whole script top to bottom on every interaction, so one execution of the
    script is a function of what the outside world answers during that run:
    what [joblib.load] finds on disk, what every number widget returns, whether
    the button is pressed and what the unpickled model's [predict] does.

    The module-level names of the script are the fields of [globals]; every
    statement is a state transformer over them that can finish, raise a Python
    exception, or stop the run ([st.stop()]).  Numbers are rationals: the
    script never does arithmetic on them, it only stores, copies and passes
    them on. *)

From Stdlib Require Import QArith String Bool.
From stdpp Require Import gmap strings list.

Open Scope string_scope.

(** ** Python exceptions and calls that may raise *)

(** An exception object: the names of the classes in its method resolution
    order (its own class first) and the text [str(e)] gives. *)
Record exception := Exception_ {
  exc_mro : list string;
  exc_str : string
}.

(** [isinstance(e, cls)], the test of an [except cls:] clause. *)
Definition isinstance (e : exception) (cls : string) : bool :=
  bool_decide (cls ∈ exc_mro e).

Definition FileNotFoundError (msg : string) : exception :=
  Exception_ ["FileNotFoundError"; "OSError"; "Exception"; "BaseException"; "object"] msg.
Definition PermissionError (msg : string) : exception :=
  Exception_ ["PermissionError"; "OSError"; "Exception"; "BaseException"; "object"] msg.
Definition ValueError (msg : string) : exception :=
  Exception_ ["ValueError"; "Exception"; "BaseException"; "object"] msg.
Definition IndexError (msg : string) : exception :=
  Exception_ ["IndexError"; "LookupError"; "Exception"; "BaseException"; "object"] msg.
Definition NameError (name : string) : exception :=
  Exception_ ["NameError"; "Exception"; "BaseException"; "object"]
             ("name '" ++ name ++ "' is not defined").
(** [str(KeyError(k))] is [repr(k)]. *)
Definition KeyError (key : string) : exception :=
  Exception_ ["KeyError"; "LookupError"; "Exception"; "BaseException"; "object"]
             ("'" ++ key ++ "'").
Definition KeyboardInterrupt : exception :=
  Exception_ ["KeyboardInterrupt"; "BaseException"; "object"] "".

(** The answer of a call into a library or into the unpickled model. *)
Inductive ext (A : Type) : Type :=
| Returns (a : A)
| Raises (e : exception).
Arguments Returns {A} a.
Arguments Raises {A} e.

(** ** pandas: a frame of named columns *)

(** [None] in a cell is the NaN pandas fills in for a column that a row's
    dict has no key for. *)
Record DataFrame := DataFrame_ {
  columns : list string;
  rows : list (list (option Q))
}.

Module pd.
(** [pd.DataFrame(data, columns=cols)] for a list of dicts: one row per
    dict, the cells taken by column name, in the order of [cols]. *)
Definition DataFrame (data : list (gmap string Q)) (cols : list string) : DataFrame :=
  DataFrame_ cols (map (fun d : gmap string Q => map (fun c => d !! c) cols) data).
End pd.

(** ** The loaded model *)

Record Model := Model_ {
  predict : DataFrame -> ext (list Q)
}.

(** ** What the page shows *)

(** The text of an f-string: literal pieces and floats formatted [:.2f]. *)
Inductive part :=
| Lit (s : string)
| Fmt2f (x : Q).

Definition text := list part.

(** The keyword arguments the script passes to [st.number_input]. *)
Record number_input_args := NumberInput {
  label : string;
  min_value : option Q;
  max_value : option Q;
  value : Q;
  step : Q;
  format : string
}.

Inductive element :=
| El_page_config (page_title page_icon layout initial_sidebar_state : string)
| El_success (body : text)
| El_error (body : text)
| El_title (body : text)
| El_markdown (body : text)
| El_write (body : text)
| El_info (body : text)
| El_balloons
| El_columns (n : nat)
| El_number_input (args : number_input_args)
| El_button (label_ help : string).

(** Where an element lands: the page itself or one of the columns. *)
Inductive container :=
| page
| column (i : nat).

(** What one run of the script does to the outside, in order. *)
Inductive event :=
| Render (c : container) (e : element)
| JoblibLoad (file : string)
| Predict (df : DataFrame).

(** ** The outside world of one run *)

Record world := World {
  (** what [joblib.load] finds for each of the three files *)
  youtube_revenue_model_joblib : ext Model;
  model_features_joblib : ext (list string);
  feature_means_joblib : ext (gmap string Q);
  (** what [st.number_input] answers for a widget in this run: the value the
      user left in it, or an exception of the library *)
  widget : number_input_args -> ext Q;
  (** whether the button with this label was clicked to trigger this run *)
  clicked : string -> bool
}.

(** ** The script's module-level names *)

Record globals := Globals {
  model : option Model;
  model_features : option (list string);
  feature_means : option (gmap string Q);
  user_inputs : option (list (string * Q));
  input_df_dict : option (gmap string Q);
  input_df : option DataFrame;
  prediction : option Q;
  (** the container of the enclosing [with] block *)
  current : container;
  (** the events so far, oldest first *)
  trace : list event
}.

Definition unbound : globals :=
  Globals None None None None None None None page [].

Definition set_model (v : Model) (g : globals) : globals :=
  Globals (Some v) (model_features g) (feature_means g) (user_inputs g)
          (input_df_dict g) (input_df g) (prediction g) (current g) (trace g).
Definition set_model_features (v : list string) (g : globals) : globals :=
  Globals (model g) (Some v) (feature_means g) (user_inputs g)
          (input_df_dict g) (input_df g) (prediction g) (current g) (trace g).
Definition set_feature_means (v : gmap string Q) (g : globals) : globals :=
  Globals (model g) (model_features g) (Some v) (user_inputs g)
          (input_df_dict g) (input_df g) (prediction g) (current g) (trace g).
Definition set_user_inputs (v : list (string * Q)) (g : globals) : globals :=
  Globals (model g) (model_features g) (feature_means g) (Some v)
          (input_df_dict g) (input_df g) (prediction g) (current g) (trace g).
Definition set_input_df_dict (v : gmap string Q) (g : globals) : globals :=
  Globals (model g) (model_features g) (feature_means g) (user_inputs g)
          (Some v) (input_df g) (prediction g) (current g) (trace g).
Definition set_input_df (v : DataFrame) (g : globals) : globals :=
  Globals (model g) (model_features g) (feature_means g) (user_inputs g)
          (input_df_dict g) (Some v) (prediction g) (current g) (trace g).
Definition set_prediction (v : Q) (g : globals) : globals :=
  Globals (model g) (model_features g) (feature_means g) (user_inputs g)
          (input_df_dict g) (input_df g) (Some v) (current g) (trace g).
Definition set_current (c : container) (g : globals) : globals :=
  Globals (model g) (model_features g) (feature_means g) (user_inputs g)
          (input_df_dict g) (input_df g) (prediction g) c (trace g).
Definition log (ev : event) (g : globals) : globals :=
  Globals (model g) (model_features g) (feature_means g) (user_inputs g)
          (input_df_dict g) (input_df g) (prediction g) (current g) (trace g ++ [ev]).

(** ** The monad of script statements *)

(** How a statement ends: normally with a value, by an exception, or by
    [st.stop()], which ends the run and which no [except] clause of the script
    catches. *)
Inductive res (A : Type) : Type :=
| Ret (a : A)
| Exc (e : exception)
| Stop.
Arguments Ret {A} a.
Arguments Exc {A} e.
Arguments Stop {A}.

Definition script (A : Type) : Type := globals -> res A * globals.

Definition ret {A} (a : A) : script A := fun g => (Ret a, g).

Definition bind {A B} (c : script A) (k : A -> script B) : script B :=
  fun g =>
    match c g with
    | (Ret a, g') => k a g'
    | (Exc e, g') => (Exc e, g')
    | (Stop, g') => (Stop, g')
    end.

Declare Scope script_scope.
Delimit Scope script_scope with script.
Notation "x <- c ;; k" := (bind c (fun x => k))
  (at level 100, c at next level, k at level 200, right associativity) : script_scope.
Notation "c ;; k" := (bind c (fun _ => k))
  (at level 100, k at level 200, right associativity) : script_scope.
Open Scope script_scope.

Definition raise {A} (e : exception) : script A := fun g => (Exc e, g).

(** A call that may raise, made from the script. *)
Definition call {A} (r : ext A) : script A :=
  match r with
  | Returns a => ret a
  | Raises e => raise e
  end.

(** [try: body  except cls as e: handler e]. *)
Definition try_except {A} (body : script A) (cls : string)
    (handler : exception -> script A) : script A :=
  fun g =>
    match body g with
    | (Exc e, g') => if isinstance e cls then handler e g' else (Exc e, g')
    | r => r
    end.

(** Reading a module-level name; an unbound one is a [NameError]. *)
Definition name {A} (proj : globals -> option A) (id : string) : script A :=
  fun g =>
    match proj g with
    | Some v => (Ret v, g)
    | None => (Exc (NameError id), g)
    end.

Definition assign (upd : globals -> globals) : script unit :=
  fun g => (Ret tt, upd g).

(** [for x in l: body x]. *)
Fixpoint for_each {A} (l : list A) (body : A -> script unit) : script unit :=
  match l with
  | [] => ret tt
  | x :: l' => body x ;; for_each l' body
  end.

(** The dict a comprehension [{key x: val x for x in l}] builds, entry by entry. *)
Fixpoint dict_comprehension {A} (l : list A) (entry : A -> script (string * Q))
    (acc : gmap string Q) : script (gmap string Q) :=
  match l with
  | [] => ret acc
  | x :: l' => kv <- entry x ;; dict_comprehension l' entry (<[kv.1 := kv.2]> acc)
  end.

(** ** Python dicts *)

(** A dict that the script iterates over is kept as its items in insertion
    order; dicts that are only read and written by key are [gmap]s. *)
Module dict.
Fixpoint get (d : list (string * Q)) (k : string) : option Q :=
  match d with
  | [] => None
  | (k', v) :: d' => if decide (k' = k) then Some v else get d' k
  end.

(** [d[k] = v]: replaces the value of an existing key in place, appends a
    new key at the end. *)
Fixpoint setitem (d : list (string * Q)) (k : string) (v : Q) : list (string * Q) :=
  match d with
  | [] => [(k, v)]
  | (k', v') :: d' =>
      if decide (k' = k) then (k', v) :: d' else (k', v') :: setitem d' k v
  end.

Definition keys (d : list (string * Q)) : list string := d.*1.
Definition items (d : list (string * Q)) : list (string * Q) := d.
End dict.

(** [m[k]] on a dict read by key. *)
Definition getitem (m : gmap string Q) (k : string) : script Q :=
  match m !! k with
  | Some v => ret v
  | None => raise (KeyError k)
  end.

(** [m.get(k, d)]. *)
Definition get_default (m : gmap string Q) (k : string) (d : Q) : Q :=
  default d (m !! k).

(** [float(x)]: the numbers of the model are rationals already. *)
Definition float (x : Q) : Q := x.

(** [xs[0]] on the array [predict] returns. *)
Definition item0 (xs : list Q) : script Q :=
  match xs with
  | x :: _ => ret x
  | [] => raise (IndexError "index 0 is out of bounds for axis 0 with size 0")
  end.

(** ** Streamlit *)

Module st.
Definition render (e : element) : script unit :=
  fun g => (Ret tt, log (Render (current g) e) g).

Definition set_page_config (page_title page_icon layout initial_sidebar_state : string)
    : script unit :=
  render (El_page_config page_title page_icon layout initial_sidebar_state).
Definition success (body : text) : script unit := render (El_success body).
Definition error (body : text) : script unit := render (El_error body).
Definition title (body : text) : script unit := render (El_title body).
Definition markdown (body : text) : script unit := render (El_markdown body).
Definition write (body : text) : script unit := render (El_write body).
Definition info (body : text) : script unit := render (El_info body).
Definition balloons : script unit := render El_balloons.

(** [st.stop()]: nothing after it runs. *)
Definition stop {A} : script A := fun g => (Stop, g).

(** [st.columns(n)] lays out [n] columns and returns them. *)
Definition columns (n : nat) : script (list container) :=
  render (El_columns n) ;; ret (map column (seq 0 n)).

(** [st.number_input(label, min_value=.., max_value=.., value=.., step=..,
    format=..)]: the library either raises or shows the widget and returns
    its current value. *)
Definition number_input (w : world) (label : string) (min_value max_value : option Q)
    (value step : Q) (format : string) : script Q :=
  let a := NumberInput label min_value max_value value step format in
  v <- call (widget w a) ;;
  render (El_number_input a) ;;
  ret v.

(** [st.button(label, help=..)]. *)
Definition button (w : world) (label help : string) : script bool :=
  render (El_button label help) ;; ret (clicked w label).
End st.

(** [with c: body]: the body renders into [c]; the enclosing container is
    restored on the way out, however the body ends. *)
Definition with_ {A} (c : container) (body : script A) : script A :=
  fun g =>
    let outer := current g in
    let (r, g') := body (set_current c g) in
    (r, set_current outer g').

(** ** joblib *)

Module joblib.
(** [joblib.load(file)]: the call is recorded, then answers what the world
    holds for that file. *)
Definition load {A} (file : string) (found : ext A) : script A :=
  (fun g => (Ret tt, log (JoblibLoad file) g)) ;; call found.
End joblib.

(** ** The script *)

(** Lines 7-12. *)
Definition configure_page : script unit :=
  st.set_page_config "YouTube Revenue Predictor" "📊" "centered" "auto".

Definition files_not_found_message : string :=
  "Error: Model files not found. Please ensure 'youtube_revenue_model.joblib', 'model_features.joblib', and 'feature_means.joblib' are in the same directory as this app.".

(** Lines 15-22. *)
Definition load_artifacts (w : world) : script unit :=
  try_except
    (m <- joblib.load "youtube_revenue_model.joblib" (youtube_revenue_model_joblib w) ;;
     assign (set_model m) ;;
     fs <- joblib.load "model_features.joblib" (model_features_joblib w) ;;
     assign (set_model_features fs) ;;
     ms <- joblib.load "feature_means.joblib" (feature_means_joblib w) ;;
     assign (set_feature_means ms) ;;
     st.success [Lit "Model and features loaded successfully!"])
    "FileNotFoundError"
    (fun _ =>
       st.error [Lit files_not_found_message] ;;
       st.stop).

(** Lines 25-31. *)
Definition page_header : script unit :=
  st.title [Lit "💰 YouTube Channel Revenue Predictor"] ;;
  st.markdown [Lit "
Welcome to the YouTube Channel Revenue Predictor!
Input your channel's key performance metrics below to get an estimated revenue.
"] ;;
  st.write [Lit "---"].

(** Lines 34-46. *)
Definition input_features_display_names : list (string * string) :=
  [ ("Views", "Total Views");
    ("Watch Time (hours)", "Total Watch Time (hours)");
    ("Subscribers", "Total Subscribers");
    ("Video Duration", "Average Video Duration (seconds)");
    ("Likes", "Total Likes");
    ("New Comments", "Total New Comments");
    ("Shares", "Total Shares");
    ("Impressions", "Total Impressions");
    ("Video Thumbnail CTR (%)", "Video Thumbnail Click-Through Rate (%)");
    ("Average View Percentage (%)", "Average View Percentage (%)");
    ("Average View Duration", "Average View Duration (seconds)") ].

(** [input_features_display_names[key]]. *)
Definition display_name (key : string) : script string :=
  match list_find (fun kv : string * string => kv.1 = key) input_features_display_names with
  | Some (_, kv) => ret kv.2
  | None => raise (KeyError key)
  end.

(** One statement of lines 56-136:
    [user_inputs[key] = st.number_input(input_features_display_names[key],
       min_value=.., max_value=.., value=float(feature_means.get(key, 0)),
       step=.., format="%.2f")]. *)
Definition input_field (w : world) (key : string) (min_value max_value : option Q)
    (step : Q) : script unit :=
  lbl <- display_name key ;;
  means <- name feature_means "feature_means" ;;
  v <- st.number_input w lbl min_value max_value
         (float (get_default means key 0)) step "%.2f" ;;
  d <- name user_inputs "user_inputs" ;;
  assign (set_user_inputs (dict.setitem d key v)).

(** Lines 49-136. *)
Definition input_form (w : world) : script unit :=
  assign (set_user_inputs []) ;;
  cols <- st.columns 2 ;;
  match cols with
  | [col1; col2] =>
      with_ col1
        (input_field w "Views" (Some 0%Q) None 1000%Q ;;
         input_field w "Watch Time (hours)" (Some 0%Q) None 100%Q ;;
         input_field w "Subscribers" (Some 0%Q) None 10%Q ;;
         input_field w "Video Duration" (Some 0%Q) None 10%Q ;;
         input_field w "Likes" (Some 0%Q) None 10%Q ;;
         input_field w "New Comments" (Some 0%Q) None 1%Q) ;;
      with_ col2
        (input_field w "Shares" (Some 0%Q) None 1%Q ;;
         input_field w "Impressions" (Some 0%Q) None 1000%Q ;;
         input_field w "Video Thumbnail CTR (%)" (Some 0%Q) (Some 100%Q) 0.1%Q ;;
         input_field w "Average View Percentage (%)" (Some 0%Q) (Some 100%Q) 0.1%Q ;;
         input_field w "Average View Duration" (Some 0%Q) None 10%Q)
  | _ => raise (ValueError "not enough values to unpack")
  end.

(** Lines 139-147. *)
Definition prepare_input : script unit :=
  (* input_df_dict = {feature: feature_means[feature] for feature in model_features} *)
  fs <- name model_features "model_features" ;;
  d <- dict_comprehension fs
         (fun feature =>
            means <- name feature_means "feature_means" ;;
            x <- getitem means feature ;;
            ret (feature, x))
         ∅ ;;
  assign (set_input_df_dict d) ;;
  (* for feature, value in user_inputs.items(): ... *)
  ui <- name user_inputs "user_inputs" ;;
  for_each (dict.items ui)
    (fun kv =>
       d <- name input_df_dict "input_df_dict" ;;
       if bool_decide (is_Some (d !! kv.1))
       then assign (set_input_df_dict (<[kv.1 := kv.2]> d))
       else ret tt) ;;
  (* input_df = pd.DataFrame([input_df_dict], columns=model_features) *)
  d <- name input_df_dict "input_df_dict" ;;
  fs <- name model_features "model_features" ;;
  assign (set_input_df (pd.DataFrame [d] fs)).

(** [model.predict(input_df)]: the call is recorded, then answers as the
    model does. *)
Definition call_predict (m : Model) (df : DataFrame) : script (list Q) :=
  (fun g => (Ret tt, log (Predict df) g)) ;; call (predict m df).

(** Lines 150-157. *)
Definition prediction_button (w : world) : script unit :=
  st.write [Lit "---"] ;;
  pressed <- st.button w "Predict Estimated Revenue"
               "Click to get the revenue prediction based on your inputs" ;;
  if pressed : bool then
    try_except
      (m <- name model "model" ;;
       df <- name input_df "input_df" ;;
       ys <- call_predict m df ;;
       y <- item0 ys ;;
       assign (set_prediction y) ;;
       st.success [Lit "**Predicted Estimated Revenue (USD): $"; Fmt2f y; Lit "**"] ;;
       st.balloons)
      "Exception"
      (fun e => st.error [Lit "An error occurred during prediction: "; Lit (exc_str e)])
  else ret tt.

(** Lines 159-169. *)
Definition page_footer : script unit :=
  st.write [Lit "---"] ;;
  st.markdown [Lit "### How to Use This App"] ;;
  st.info [Lit "
1.  **Run Part 1 code (Model Training and Saving)** in your Jupyter Notebook to generate `youtube_revenue_model.joblib`, `model_features.joblib`, and `feature_means.joblib`. Make sure these files are saved in the same directory where you'll save this Streamlit app script.
2.  **Save this code** as `streamlit_app.py` in the same directory.
3.  **Open your terminal or command prompt**, navigate to that directory, and run:
    `streamlit run streamlit_app.py`
4.  Your browser will automatically open to the Streamlit app.
"] ;;
  st.markdown [Lit "Developed with ❤️ using Python & Streamlit"].

(** The whole file, top to bottom. *)
Definition YT_Performance_Model (w : world) : script unit :=
  configure_page ;;
  load_artifacts w ;;
  page_header ;;
  input_form w ;;
  prepare_input ;;
  prediction_button w ;;
  page_footer.

(** One run of the script: every name starts unbound and nothing is shown. *)
Definition run (w : world) : res unit * globals :=
  YT_Performance_Model w unbound.

(** * Specification vocabulary *)

(** A statement keeps a relation between the globals before and after it,
    however it ends. *)
Definition keeps (R : globals -> globals -> Prop) {A} (c : script A) : Prop :=
  forall g, R g (snd (c g)).

(** The three loaded artifacts are the same objects with the same contents. *)
Definition same_artifacts (g g' : globals) : Prop :=
  model g' = model g /\
  model_features g' = model_features g /\
  feature_means g' = feature_means g.

(** The number widgets a trace shows, in order. *)
Definition rendered_inputs (tr : list event) : list number_input_args :=
  omap (fun ev => match ev with
                  | Render _ (El_number_input a) => Some a
                  | _ => None
                  end) tr.

(** The [predict] calls of a trace, in order. *)
Definition predict_calls (tr : list event) : list DataFrame :=
  omap (fun ev => match ev with Predict df => Some df | _ => None end) tr.

(** The bodies of the [st.error] boxes of a trace, in order. *)
Definition rendered_errors (tr : list event) : list text :=
  omap (fun ev => match ev with
                  | Render _ (El_error body) => Some body
                  | _ => None
                  end) tr.

Definition same_inputs (g g' : globals) : Prop :=
  rendered_inputs (trace g') = rendered_inputs (trace g).

(** The eleven statements of the form, in source order: the key under which
    the value is stored, [max_value] and [step]. *)
Definition form_fields : list (string * option Q * Q) :=
  [ ("Views", None, 1000%Q);
    ("Watch Time (hours)", None, 100%Q);
    ("Subscribers", None, 10%Q);
    ("Video Duration", None, 10%Q);
    ("Likes", None, 10%Q);
    ("New Comments", None, 1%Q);
    ("Shares", None, 1%Q);
    ("Impressions", None, 1000%Q);
    ("Video Thumbnail CTR (%)", Some 100%Q, 0.1%Q);
    ("Average View Percentage (%)", Some 100%Q, 0.1%Q);
    ("Average View Duration", None, 10%Q) ].

(** The features the form displays. *)
Definition displayed_features : list string := form_fields.*1.*1.

Definition label_of (key : string) : string :=
  match list_find (fun kv : string * string => kv.1 = key) input_features_display_names with
  | Some (_, kv) => kv.2
  | None => ""
  end.

(** The widget a form statement asks for when the means are [M]. *)
Definition field_widget (M : gmap string Q) (f : string * option Q * Q) : number_input_args :=
  NumberInput (label_of f.1.1) (Some 0%Q) f.1.2 (get_default M f.1.1 0) f.2 "%.2f".

Definition form_widgets (M : gmap string Q) : list number_input_args :=
  map (field_widget M) form_fields.

(** The library shows the widget and returns a value for it. *)
Definition accepted (w : world) (a : number_input_args) : Prop :=
  exists v, widget w a = Returns v.

(** The value a widget returns in this run. *)
Definition answer (w : world) (a : number_input_args) : Q :=
  match widget w a with
  | Returns v => v
  | Raises _ => 0%Q
  end.

(** What the form leaves in [user_inputs] when every widget is accepted. *)
Definition entered (w : world) (M : gmap string Q) : list (string * Q) :=
  map (fun f => (f.1.1, answer w (field_widget M f))) form_fields.

(** The events of the form: the two columns, six widgets in the first and
    five in the second. *)
Definition form_events (outer : container) (M : gmap string Q) : list event :=
  Render outer (El_columns 2)
  :: map (fun a => Render (column 0) (El_number_input a)) (take 6 (form_widgets M))
  ++ map (fun a => Render (column 1) (El_number_input a)) (drop 6 (form_widgets M)).

(** Every expected feature has a mean. *)
Definition covers (M : gmap string Q) (F : list string) : Prop :=
  Forall (fun f => is_Some (M !! f)) F.

#[global] Instance covers_dec M F : Decision (covers M F).
Proof. unfold covers. apply _. Defined.

(** The dict the comprehension of line 139 builds over [acc] when the means
    cover the features. *)
Definition mean_initialized (M : gmap string Q) (F : list string)
    (acc : gmap string Q) : gmap string Q :=
  fold_left (fun d f => match M !! f with Some x => <[f := x]> d | None => d end) F acc.

(** What the loop of lines 142-144 makes of the dict [d]. *)
Definition overridden (U : list (string * Q)) (d : gmap string Q) : gmap string Q :=
  fold_left (fun d kv => if bool_decide (is_Some (d !! kv.1))
                         then <[kv.1 := kv.2]> d else d) U d.

(** [input_df_dict] and [input_df] after lines 139-147. *)
Definition vector_dict (M : gmap string Q) (F : list string) (U : list (string * Q))
    : gmap string Q :=
  overridden U (mean_initialized M F ∅).

Definition constructed (M : gmap string Q) (F : list string) (U : list (string * Q))
    : DataFrame :=
  pd.DataFrame [vector_dict M F U] F.

(** The events of lines 150-151. *)
Definition button_events (c : container) : list event :=
  [ Render c (El_write [Lit "---"]);
    Render c (El_button "Predict Estimated Revenue"
                "Click to get the revenue prediction based on your inputs") ].

(** The events of lines 159-169, from the script itself. *)
Definition footer_events : list event := trace (snd (page_footer unbound)).

(** What the user reads when [predict] fails with [e]. *)
Definition prediction_error (e : exception) : text :=
  [Lit "An error occurred during prediction: "; Lit (exc_str e)].

(** Nothing about the vector or the user's values changes. *)
Definition same_vector (g g' : globals) : Prop :=
  user_inputs g' = user_inputs g /\
  input_df_dict g' = input_df_dict g /\
  input_df g' = input_df g.

(** The two features that are percentages, and their labels. *)
Definition percentage_features : list string :=
  ["Video Thumbnail CTR (%)"; "Average View Percentage (%)"].

Definition percentage_labels : list string := map label_of percentage_features.

(** The contract of [st.number_input]: a value it returns lies between the
    [min_value] and the [max_value] it was given. *)
Definition widget_contract (w : world) : Prop :=
  forall a v, widget w a = Returns v ->
    (forall lo, min_value a = Some lo -> (lo <= v)%Q) /\
    (forall hi, max_value a = Some hi -> (v <= hi)%Q).

(** A value of the form, stored under [key]: never negative, and at most 100
    for a percentage. *)
Definition within_bounds (kv : string * Q) : Prop :=
  (0 <= kv.2)%Q /\ (kv.1 ∈ percentage_features -> (kv.2 <= 100)%Q).

(** A widget of the form: minimum 0, and maximum 100 for a percentage. *)
Definition bounded_widget (a : number_input_args) : Prop :=
  min_value a = Some 0%Q /\
  (label a ∈ percentage_labels -> max_value a = Some 100%Q).

Definition form_bounded (g : globals) : Prop :=
  (forall U, user_inputs g = Some U -> Forall within_bounds U) /\
  Forall bounded_widget (rendered_inputs (trace g)).

Definition stays_bounded (g g' : globals) : Prop :=
  form_bounded g -> form_bounded g'.

(** ** The three artifacts and what the page says about them *)

Inductive artifact :=
| the_model
| the_features
| the_means.

Definition file_of (a : artifact) : string :=
  match a with
  | the_model => "youtube_revenue_model.joblib"
  | the_features => "model_features.joblib"
  | the_means => "feature_means.joblib"
  end.

(** The exception [joblib.load] raises for an artifact, if it raises. *)
Definition load_error (w : world) (a : artifact) : option exception :=
  match a with
  | the_model =>
      match youtube_revenue_model_joblib w with Raises e => Some e | Returns _ => None end
  | the_features =>
      match model_features_joblib w with Raises e => Some e | Returns _ => None end
  | the_means =>
      match feature_means_joblib w with Raises e => Some e | Returns _ => None end
  end.

(** The first load to fail, in the order of lines 16-18. *)
Definition first_failure (w : world) : option (artifact * exception) :=
  match load_error w the_model, load_error w the_features, load_error w the_means with
  | Some e, _, _ => Some (the_model, e)
  | None, Some e, _ => Some (the_features, e)
  | None, None, Some e => Some (the_means, e)
  | None, None, None => None
  end.

(** A text names a file when the file name occurs in one of its pieces. *)
Definition mentions (body : text) (file : string) : bool :=
  existsb (fun p => match p with
                    | Lit s => bool_decide (is_Some (index 0 file s))
                    | Fmt2f _ => false
                    end) body.

(** The claim about a failed load, as the specification words it: no form
    and no prediction, and one error box that names which artifacts could not
    be loaded: those and no others. *)
Definition halts_naming_missing (w : world) : Prop :=
  rendered_inputs (trace (snd (run w))) = [] /\
  predict_calls (trace (snd (run w))) = [] /\
  exists body,
    rendered_errors (trace (snd (run w))) = [body] /\
    forall a, mentions body (file_of a) = true <-> is_Some (load_error w a).

(** The claim about a failed prediction, as the specification words it: the
    script runs to its end, the form is on the page, and the one error box
    carries the exception's text. *)
Definition caught_and_shown (w : world) (M : gmap string Q) (e : exception) : Prop :=
  fst (run w) = Ret tt /\
  rendered_inputs (trace (snd (run w))) = form_widgets M /\
  rendered_errors (trace (snd (run w))) = [prediction_error e].

(** ** Worlds to run the script in *)

Definition StreamlitAPIException (msg : string) : exception :=
  Exception_ ["StreamlitAPIException"; "Exception"; "BaseException"; "object"] msg.

Definition in_range (a : number_input_args) (x : Q) : bool :=
  match min_value a with Some lo => Qle_bool lo x | None => true end &&
  match max_value a with Some hi => Qle_bool x hi | None => true end.

(** A number widget as Streamlit documents it: a default outside the bounds
    is refused with an exception; otherwise the widget returns what the user
    typed under that label if it is within the bounds, and the default if the
    user typed nothing or something the widget does not accept. *)
Definition streamlit_widget (typed : string -> option Q) (a : number_input_args) : ext Q :=
  if in_range a (value a) then
    match typed (label a) with
    | Some v => if in_range a v then Returns v else Returns (value a)
    | None => Returns (value a)
    end
  else Raises (StreamlitAPIException "The default value is outside the bounds.").

Definition nothing_typed : string -> option Q := fun _ => None.

Definition typed_only (lbl : string) (v : Q) : string -> option Q :=
  fun l => if decide (l = lbl) then Some v else None.

Definition constant_model (y : Q) : Model := Model_ (fun _ => Returns [y]).
Definition raising_model (e : exception) : Model := Model_ (fun _ => Raises e).

(** The scenario of the specification: means 1000 for Views, 50 for
    Subscribers and 0 for every other feature; the model expects Views,
    Subscribers and Likes; the user sets Views to 5000 and nothing else. *)
Definition scenario_means : gmap string Q :=
  list_to_map
    [ ("Views", 1000%Q); ("Watch Time (hours)", 0%Q); ("Subscribers", 50%Q);
      ("Video Duration", 0%Q); ("Likes", 0%Q); ("New Comments", 0%Q);
      ("Shares", 0%Q); ("Impressions", 0%Q); ("Video Thumbnail CTR (%)", 0%Q);
      ("Average View Percentage (%)", 0%Q); ("Average View Duration", 0%Q) ].

Definition scenario_features : list string := ["Views"; "Subscribers"; "Likes"].

Definition scenario_world (m : Model) (press : bool) : world :=
  World (Returns m) (Returns scenario_features) (Returns scenario_means)
        (streamlit_widget (typed_only "Total Views" 5000%Q))
        (fun _ => press).

(** The same session with one of the files unreadable or absent. *)
Definition unreadable_features_world : world :=
  World (Returns (constant_model 42%Q))
        (Raises (PermissionError "[Errno 13] Permission denied: 'model_features.joblib'"))
        (Returns scenario_means)
        (streamlit_widget nothing_typed) (fun _ => false).

Definition missing_means_world : world :=
  World (Returns (constant_model 42%Q)) (Returns scenario_features)
        (Raises (FileNotFoundError
                   "[Errno 2] No such file or directory: 'feature_means.joblib'"))
        (streamlit_widget nothing_typed) (fun _ => false).

Definition missing_model_world : world :=
  World (Raises (FileNotFoundError
                   "[Errno 2] No such file or directory: 'youtube_revenue_model.joblib'"))
        (Returns scenario_features) (Returns scenario_means)
        (streamlit_widget nothing_typed) (fun _ => false).

(** A model that expects a feature the means do not have. *)
Definition uncovered_world : world :=
  World (Returns (constant_model 42%Q))
        (Returns ["Views"; "Estimated Revenue (USD)"; "Likes"])
        (Returns scenario_means)
        (streamlit_widget nothing_typed) (fun _ => true).

(** ** More of the page *)

(** The labels of the buttons a trace shows, in order. *)
Definition rendered_buttons (tr : list event) : list string :=
  omap (fun ev => match ev with
                  | Render _ (El_button l _) => Some l
                  | _ => None
                  end) tr.

(** The bodies of the [st.success] boxes of a trace, in order. *)
Definition rendered_successes (tr : list event) : list text :=
  omap (fun ev => match ev with
                  | Render _ (El_success body) => Some body
                  | _ => None
                  end) tr.

(** The files [joblib.load] was called on, in order. *)
Definition load_attempts (tr : list event) : list string :=
  omap (fun ev => match ev with JoblibLoad file => Some file | _ => None end) tr.

Definition loaded_message : text := [Lit "Model and features loaded successfully!"].

(** The f-string of line 154. *)
Definition prediction_message (y : Q) : text :=
  [Lit "**Predicted Estimated Revenue (USD): $"; Fmt2f y; Lit "**"].

(** The events of lines 7-12 and of lines 25-31, from the script itself. *)
Definition config_events : list event := trace (snd (configure_page unbound)).
Definition header_events : list event := trace (snd (page_header unbound)).

(** The events of lines 16-19 when the three loads succeed. *)
Definition loaded_events : list event :=
  [ JoblibLoad "youtube_revenue_model.joblib";
    JoblibLoad "model_features.joblib";
    JoblibLoad "feature_means.joblib";
    Render page (El_success loaded_message) ].

(** The page down to the form, when the artifacts load and the library
    accepts every widget. *)
Definition page_with_form (M : gmap string Q) : list event :=
  config_events ++ loaded_events ++ header_events ++ form_events page M.

(** The first widget of a list that the library refuses: the widgets shown
    before it, and the exception. *)
Fixpoint first_refused (w : world) (ws : list number_input_args)
    : option (list number_input_args * exception) :=
  match ws with
  | [] => None
  | a :: ws' =>
      match widget w a with
      | Raises e => Some ([], e)
      | Returns _ =>
          match first_refused w ws' with
          | Some (shown, e) => Some (a :: shown, e)
          | None => None
          end
      end
  end.

(** The artifacts whose load is attempted: the loads stop at the first one
    that fails. *)
Definition attempted (w : world) : list artifact :=
  match first_failure w with
  | Some (the_model, _) => [the_model]
  | Some (the_features, _) => [the_model; the_features]
  | _ => [the_model; the_features; the_means]
  end.

Definition same_loads (g g' : globals) : Prop :=
  load_attempts (trace g') = load_attempts (trace g).

(** A model whose [predict] returns an empty array. *)
Definition empty_model : Model := Model_ (fun _ => Returns []).

(** The scenario with nothing typed into the form. *)
Definition untouched_world (m : Model) (press : bool) : world :=
  World (Returns m) (Returns scenario_features) (Returns scenario_means)
        (streamlit_widget nothing_typed) (fun _ => press).

(** The scenario with a negative mean for Likes: the default of the Likes
    widget is below its minimum. *)
Definition negative_likes_means : gmap string Q := <["Likes" := (-3)%Q]> scenario_means.

Definition negative_likes_world : world :=
  World (Returns (constant_model 42%Q)) (Returns scenario_features)
        (Returns negative_likes_means)
        (streamlit_widget nothing_typed) (fun _ => true).

(** The scenario with a mean of 104 for the average view percentage: the
    default of that widget is above its maximum of 100. *)
Definition high_percentage_means : gmap string Q :=
  <["Average View Percentage (%)" := 104%Q]> scenario_means.

Definition high_percentage_world : world :=
  World (Returns (constant_model 42%Q)) (Returns scenario_features)
        (Returns high_percentage_means)
        (streamlit_widget nothing_typed) (fun _ => true).

(** * Reasoning about statements *)

Lemma bind_Ret {A B} (c : script A) (k : A -> script B) g a g' :
  c g = (Ret a, g') -> bind c k g = k a g'.
Proof. intros H. unfold bind. now rewrite H. Qed.

Lemma bind_Exc {A B} (c : script A) (k : A -> script B) g e g' :
  c g = (Exc e, g') -> bind c k g = (Exc e, g').
Proof. intros H. unfold bind. now rewrite H. Qed.

Lemma bind_Stop {A B} (c : script A) (k : A -> script B) g g' :
  c g = (Stop, g') -> bind c k g = (Stop, g').
Proof. intros H. unfold bind. now rewrite H. Qed.

(** Rules for [keeps], for any preorder on globals. *)
Section Frame.
Variable R : globals -> globals -> Prop.
Hypothesis R_refl : forall g, R g g.
Hypothesis R_trans : forall g1 g2 g3, R g1 g2 -> R g2 g3 -> R g1 g3.

Lemma keeps_ret {A} (a : A) : keeps R (ret a).
Proof. intros g. apply R_refl. Qed.

Lemma keeps_raise {A} e : keeps R (@raise A e).
Proof. intros g. apply R_refl. Qed.

Lemma keeps_stop {A} : keeps R (@st.stop A).
Proof. intros g. apply R_refl. Qed.

Lemma keeps_call {A} (r : ext A) : keeps R (call r).
Proof. destruct r; [apply keeps_ret | apply keeps_raise]. Qed.

Lemma keeps_name {A} (proj : globals -> option A) id : keeps R (name proj id).
Proof. intros g. unfold name. destruct (proj g); apply R_refl. Qed.

Lemma keeps_assign upd : (forall g, R g (upd g)) -> keeps R (assign upd).
Proof. intros H g. apply H. Qed.

Lemma keeps_bind {A B} (c : script A) (k : A -> script B) :
  keeps R c -> (forall a, keeps R (k a)) -> keeps R (bind c k).
Proof.
  intros Hc Hk g. unfold bind. specialize (Hc g).
  destruct (c g) as [[a | e | ] g1]; simpl in *; [| exact Hc | exact Hc].
  eapply R_trans; [exact Hc | apply Hk].
Qed.

Lemma keeps_try_except {A} (body : script A) cls handler :
  keeps R body -> (forall e, keeps R (handler e)) -> keeps R (try_except body cls handler).
Proof.
  intros Hb Hh g. unfold try_except. specialize (Hb g).
  destruct (body g) as [[a | e | ] g1]; simpl in *; [exact Hb | | exact Hb].
  destruct (isinstance e cls); [| exact Hb].
  eapply R_trans; [exact Hb | apply Hh].
Qed.

Lemma keeps_for_each {A} (l : list A) body :
  (forall x, keeps R (body x)) -> keeps R (for_each l body).
Proof.
  intros Hb. induction l as [| x l IH]; simpl.
  - apply keeps_ret.
  - apply keeps_bind; [apply Hb | intros _; exact IH].
Qed.

Lemma keeps_dict_comprehension {A} (l : list A) entry acc :
  (forall x, keeps R (entry x)) -> keeps R (dict_comprehension l entry acc).
Proof.
  intros He. revert acc. induction l as [| x l IH]; intros acc; simpl.
  - apply keeps_ret.
  - apply keeps_bind; [apply He | intros kv; apply IH].
Qed.

Lemma keeps_with {A} c (body : script A) :
  (forall c' g, R g (set_current c' g)) -> keeps R body -> keeps R (with_ c body).
Proof.
  intros Hcur Hb g. unfold with_. specialize (Hb (set_current c g)).
  destruct (body (set_current c g)) as [r g1]; simpl in *.
  eapply R_trans; [apply Hcur |]. eapply R_trans; [exact Hb | apply Hcur].
Qed.

Lemma keeps_log ev : (forall g, R g (log ev g)) -> keeps R (fun g => (Ret tt, log ev g)).
Proof. intros H g. apply H. Qed.

Lemma keeps_render e : (forall c g, R g (log (Render c e) g)) -> keeps R (st.render e).
Proof. intros H g. apply H. Qed.
End Frame.

(** Walks through a statement with the rules above; what is left are the
    assignments and events, to be checked against the relation at hand. *)
Ltac keeps_step Hrefl Htrans :=
  lazymatch goal with
  | |- keeps _ (ret _) => apply (keeps_ret _ Hrefl)
  | |- keeps _ (raise _) => apply (keeps_raise _ Hrefl)
  | |- keeps _ st.stop => apply (keeps_stop _ Hrefl)
  | |- keeps _ (call _) => apply (keeps_call _ Hrefl)
  | |- keeps _ (name _ _) => apply (keeps_name _ Hrefl)
  | |- keeps _ (bind _ _) => apply (keeps_bind _ Htrans); [| intros ?]
  | |- keeps _ (try_except _ _ _) => apply (keeps_try_except _ Htrans); [| intros ?]
  | |- keeps _ (for_each _ _) => apply (keeps_for_each _ Hrefl Htrans); intros ?
  | |- keeps _ (dict_comprehension _ _ _) =>
      apply (keeps_dict_comprehension _ Hrefl Htrans); intros ?
  | |- keeps _ (with_ _ _) => apply (keeps_with _ Htrans); [intros ? ? |]
  | |- keeps _ (assign _) => apply keeps_assign; intros ?
  | |- keeps _ (st.render _) => apply keeps_render; intros ? ?
  | |- keeps _ (fun g => (Ret tt, log _ g)) => apply keeps_log; intros ?
  | |- keeps _ (if ?b then _ else _) => destruct b
  | |- keeps _ (match ?x with _ => _ end) => destruct x
  end.

Ltac keeps_walk Hrefl Htrans := repeat keeps_step Hrefl Htrans.

Lemma same_artifacts_refl g : same_artifacts g g.
Proof. now unfold same_artifacts. Qed.

Lemma same_artifacts_trans g1 g2 g3 :
  same_artifacts g1 g2 -> same_artifacts g2 g3 -> same_artifacts g1 g3.
Proof. unfold same_artifacts. intros (-> & -> & ->) (-> & -> & ->). auto. Qed.

Ltac keeps_artifacts :=
  keeps_walk same_artifacts_refl same_artifacts_trans;
  try (unfold same_artifacts; simpl; auto).

Lemma page_header_artifacts : keeps same_artifacts page_header.
Proof. unfold page_header, st.title, st.markdown, st.write. keeps_artifacts. Qed.

Lemma input_form_artifacts w : keeps same_artifacts (input_form w).
Proof.
  unfold input_form, input_field, display_name, st.number_input, st.columns.
  keeps_artifacts.
Qed.

Lemma input_field_returns w key mn mx stp m fs M U d df p c tr lbl v :
  display_name key = ret lbl ->
  widget w (NumberInput lbl mn mx (get_default M key 0) stp "%.2f") = Returns v ->
  input_field w key mn mx stp (Globals m fs (Some M) (Some U) d df p c tr) =
    (Ret tt,
     Globals m fs (Some M) (Some (dict.setitem U key v)) d df p c
       (tr ++ [Render c (El_number_input
                           (NumberInput lbl mn mx (get_default M key 0) stp "%.2f"))])).
Proof.
  intros Hl Hw. unfold input_field. rewrite Hl.
  unfold st.number_input, float, bind, ret, name, call, st.render, assign. simpl.
  rewrite Hw. reflexivity.
Qed.

Lemma with_Ret {A} c (body : script A) m fs ms ui d df p cur tr a m' fs' ms' ui' d' df' p' c' tr' :
  body (Globals m fs ms ui d df p c tr) = (Ret a, Globals m' fs' ms' ui' d' df' p' c' tr') ->
  with_ c body (Globals m fs ms ui d df p cur tr) =
    (Ret a, Globals m' fs' ms' ui' d' df' p' cur tr').
Proof. intros H. unfold with_, set_current. simpl. now rewrite H. Qed.

Ltac field_step :=
  eapply input_field_returns; [ reflexivity | eassumption ].

Lemma input_form_returns w g M :
  feature_means g = Some M ->
  Forall (accepted w) (form_widgets M) ->
  input_form w g =
    (Ret tt,
     Globals (model g) (model_features g) (feature_means g) (Some (entered w M))
             (input_df_dict g) (input_df g) (prediction g) (current g)
             (trace g ++ form_events (current g) M)).
Proof.
  intros HM Hacc.
  assert (Hans : Forall (fun a => widget w a = Returns (answer w a)) (form_widgets M)).
  { eapply Forall_impl; [exact Hacc |]. intros a [v Hv]. unfold answer. now rewrite Hv. }
  clear Hacc. unfold form_widgets, form_fields, field_widget in Hans. simpl in Hans.
  repeat match goal with
         | H : Forall _ (_ :: _) |- _ => apply Forall_cons_1 in H; destruct H as [? H]
         end.
  clear Hans.
  destruct g as [m fs ms ui d df p c tr]. simpl in HM. subst ms. simpl.
  unfold input_form.
  erewrite bind_Ret; [| reflexivity].
  erewrite bind_Ret; [| reflexivity].
  change (map column (seq 0 2)) with [column 0; column 1]. cbv beta iota.
  unfold log, set_user_inputs.
  cbn [model model_features feature_means user_inputs input_df_dict input_df
       prediction current trace].
  erewrite bind_Ret.
  2:{ eapply with_Ret.
      repeat (erewrite bind_Ret; [| field_step]).
      field_step. }
  erewrite with_Ret.
  2:{ repeat (erewrite bind_Ret; [| field_step]).
      field_step. }
  rewrite <- !app_assoc. reflexivity.
Qed.

(** ** Lines 139-147: building the vector *)

Lemma dict_comprehension_means M F : forall acc m fs ui d df p c tr,
  covers M F ->
  dict_comprehension F
    (fun feature =>
       means <- name feature_means "feature_means" ;;
       x <- getitem means feature ;;
       ret (feature, x)) acc (Globals m fs (Some M) ui d df p c tr) =
  (Ret (mean_initialized M F acc), Globals m fs (Some M) ui d df p c tr).
Proof.
  induction F as [| f F IH]; intros acc m fs ui d df p c tr Hc.
  - reflexivity.
  - apply Forall_cons_1 in Hc. destruct Hc as [[x Hx] Hc].
    simpl. unfold bind at 1. unfold bind at 1. unfold name at 1. simpl.
    unfold getitem, bind at 1. rewrite Hx. unfold ret at 1 2. simpl.
    rewrite IH by exact Hc. reflexivity.
Qed.

Lemma dict_comprehension_missing M F :
  ~ covers M F ->
  exists f, f ∈ F /\ M !! f = None /\
  forall acc m fs ui d df p c tr,
  dict_comprehension F
    (fun feature =>
       means <- name feature_means "feature_means" ;;
       x <- getitem means feature ;;
       ret (feature, x)) acc (Globals m fs (Some M) ui d df p c tr) =
  (Exc (KeyError f), Globals m fs (Some M) ui d df p c tr).
Proof.
  induction F as [| f F IH]; intros Hc.
  - destruct Hc. constructor.
  - destruct (M !! f) as [x |] eqn:Hx.
    + destruct IH as (f' & Hin & Hnone & Heq).
      { intros HF. apply Hc. constructor; [by rewrite Hx | exact HF]. }
      exists f'. split; [by right |]. split; [exact Hnone |].
      intros acc m fs ui d df p c tr.
      simpl. unfold bind at 1. unfold bind at 1. unfold name at 1. simpl.
      unfold getitem, bind at 1. rewrite Hx. unfold ret at 1 2. simpl. apply Heq.
    + exists f. split; [by left |]. split; [exact Hx |].
      intros acc m fs ui d df p c tr.
      simpl. unfold bind at 1. unfold bind at 1. unfold name at 1. simpl.
      unfold getitem, bind at 1. rewrite Hx. reflexivity.
Qed.

Lemma for_each_overrides U : forall m fs ms ui d df p c tr,
  for_each U
    (fun kv : string * Q =>
       d <- name input_df_dict "input_df_dict" ;;
       if bool_decide (is_Some (d !! kv.1))
       then assign (set_input_df_dict (<[kv.1 := kv.2]> d))
       else ret tt) (Globals m fs ms ui (Some d) df p c tr) =
  (Ret tt, Globals m fs ms ui (Some (overridden U d)) df p c tr).
Proof.
  induction U as [| [k v] U IH]; intros m fs ms ui d df p c tr.
  - reflexivity.
  - simpl. unfold bind at 1. unfold bind at 1. unfold name at 1. simpl.
    destruct (bool_decide (is_Some (d !! k))); simpl; apply IH.
Qed.

Lemma prepare_input_returns m F M U d df p c tr :
  covers M F ->
  prepare_input (Globals m (Some F) (Some M) (Some U) d df p c tr) =
  (Ret tt, Globals m (Some F) (Some M) (Some U) (Some (vector_dict M F U))
                   (Some (constructed M F U)) p c tr).
Proof.
  intros Hc. unfold prepare_input.
  erewrite bind_Ret; [| reflexivity].
  erewrite bind_Ret; [| apply dict_comprehension_means; exact Hc].
  erewrite bind_Ret; [| reflexivity].
  erewrite bind_Ret; [| reflexivity].
  unfold set_input_df_dict, dict.items. simpl.
  erewrite bind_Ret; [| apply for_each_overrides].
  reflexivity.
Qed.

Lemma prepare_input_raises F M :
  ~ covers M F ->
  exists f, f ∈ F /\ M !! f = None /\
  forall m ui d df p c tr,
  prepare_input (Globals m (Some F) (Some M) ui d df p c tr) =
  (Exc (KeyError f), Globals m (Some F) (Some M) ui d df p c tr).
Proof.
  intros Hc.
  destruct (dict_comprehension_missing M F Hc) as (f & Hin & Hnone & Heq).
  exists f. split; [exact Hin |]. split; [exact Hnone |].
  intros m ui d df p c tr. unfold prepare_input.
  erewrite bind_Ret; [| reflexivity].
  erewrite bind_Exc; [reflexivity | apply Heq].
Qed.

Lemma mean_initialized_lookup M F : forall acc f,
  covers M F ->
  mean_initialized M F acc !! f = if decide (f ∈ F) then M !! f else acc !! f.
Proof.
  induction F as [| f0 F IH]; intros acc f Hc.
  - simpl. destruct (decide (f ∈ [])) as [Hin | _]; [by apply elem_of_nil in Hin | done].
  - apply Forall_cons_1 in Hc. destruct Hc as [[x Hx] Hc].
    simpl. rewrite Hx. rewrite IH by exact Hc.
    destruct (decide (f ∈ F)) as [Hin | Hnin].
    + rewrite decide_True; [done | by right].
    + destruct (decide (f = f0)) as [-> | Hne].
      * rewrite decide_True; [| by left]. by rewrite lookup_insert_eq.
      * rewrite decide_False.
        -- by rewrite lookup_insert_ne.
        -- intros Hin. apply elem_of_cons in Hin. destruct Hin; [done | done].
Qed.

Lemma dict_get_absent U k : k ∉ dict.keys U -> dict.get U k = None.
Proof.
  induction U as [| [k' v'] U IH]; intros Hk; [reflexivity |].
  unfold dict.keys in *. simpl in *.
  apply not_elem_of_cons in Hk. destruct Hk as [Hne Hk].
  rewrite decide_False by congruence. by apply IH.
Qed.

(** The loop never adds or removes a key. *)
Lemma overridden_is_Some U : forall d f,
  is_Some (overridden U d !! f) <-> is_Some (d !! f).
Proof.
  induction U as [| [k v] U IH]; intros d f; [done |].
  simpl. rewrite IH. case_bool_decide as Hk; [| done].
  destruct (decide (k = f)) as [-> | Hne].
  - rewrite lookup_insert_eq. split; [done | by eauto].
  - by rewrite lookup_insert_ne.
Qed.

Lemma overridden_lookup U : forall d f,
  NoDup (dict.keys U) ->
  overridden U d !! f =
    match d !! f with
    | Some x => Some (default x (dict.get U f))
    | None => None
    end.
Proof.
  induction U as [| [k v] U IH]; intros d f Hnd.
  - simpl. by destruct (d !! f).
  - unfold dict.keys in Hnd. simpl in Hnd. apply NoDup_cons in Hnd.
    destruct Hnd as [Hk Hnd]. simpl. rewrite IH by exact Hnd.
    destruct (decide (k = f)) as [-> | Hne].
    + rewrite (dict_get_absent U f Hk).
      case_bool_decide as Hd.
      * rewrite lookup_insert_eq. by destruct Hd as [x ->].
      * apply eq_None_not_Some in Hd. by rewrite Hd.
    + case_bool_decide; [by rewrite lookup_insert_ne | done].
Qed.

(** An entry for a key the dict does not have changes nothing. *)
Lemma overridden_drop U1 U2 k v d :
  d !! k = None ->
  overridden (U1 ++ (k, v) :: U2) d = overridden (U1 ++ U2) d.
Proof.
  intros Hk. unfold overridden. rewrite !fold_left_app. simpl.
  fold (overridden U1 d). rewrite bool_decide_false; [done |].
  rewrite overridden_is_Some, Hk. by intros [? ?].
Qed.

Lemma vector_dict_lookup M F U f :
  covers M F -> NoDup (dict.keys U) -> f ∈ F ->
  vector_dict M F U !! f =
    match dict.get U f with
    | Some u => Some u
    | None => M !! f
    end.
Proof.
  intros Hc Hnd Hin. unfold vector_dict.
  rewrite overridden_lookup by exact Hnd.
  rewrite mean_initialized_lookup by exact Hc.
  rewrite decide_True by exact Hin.
  apply Forall_forall with (x := f) in Hc; [| exact Hin].
  destruct Hc as [x ->]. by destruct (dict.get U f).
Qed.

Lemma vector_dict_not_expected M F U f :
  covers M F -> f ∉ F -> vector_dict M F U !! f = None.
Proof.
  intros Hc Hnin. apply eq_None_not_Some. unfold vector_dict.
  rewrite overridden_is_Some, mean_initialized_lookup by exact Hc.
  rewrite decide_False by exact Hnin. rewrite lookup_empty. by intros [? ?].
Qed.

(** A feature the user's dict does not mention keeps its mean. *)
Lemma vector_dict_untouched M F U f :
  covers M F -> f ∈ F -> f ∉ dict.keys U -> vector_dict M F U !! f = M !! f.
Proof.
  intros Hc Hin Hk. unfold vector_dict.
  assert (Hgen : forall d, overridden U d !! f = d !! f).
  { clear Hc Hin. induction U as [| [k v] U IH]; intros d; [done |].
    unfold dict.keys in *. simpl in *.
    apply not_elem_of_cons in Hk. destruct Hk as [Hne Hk].
    rewrite IH by exact Hk. case_bool_decide; [| done].
    by rewrite lookup_insert_ne. }
  rewrite Hgen, mean_initialized_lookup by exact Hc.
  by rewrite decide_True.
Qed.

(** ** Lines 15-22: loading *)

Lemma load_artifacts_returns w m F M m0 fs0 ms0 ui d df p c tr :
  youtube_revenue_model_joblib w = Returns m ->
  model_features_joblib w = Returns F ->
  feature_means_joblib w = Returns M ->
  load_artifacts w (Globals m0 fs0 ms0 ui d df p c tr) =
  (Ret tt,
   Globals (Some m) (Some F) (Some M) ui d df p c
     (tr ++ [JoblibLoad "youtube_revenue_model.joblib";
             JoblibLoad "model_features.joblib";
             JoblibLoad "feature_means.joblib";
             Render c (El_success [Lit "Model and features loaded successfully!"])])).
Proof.
  intros Hm HF HM. unfold load_artifacts, try_except, joblib.load, bind.
  rewrite Hm, HF, HM. simpl. unfold log. simpl. by rewrite <- !app_assoc.
Qed.

Lemma rendered_inputs_app tr1 tr2 :
  rendered_inputs (tr1 ++ tr2) = (rendered_inputs tr1 ++ rendered_inputs tr2)%list.
Proof. apply omap_app. Qed.

Lemma predict_calls_app tr1 tr2 :
  predict_calls (tr1 ++ tr2) = (predict_calls tr1 ++ predict_calls tr2)%list.
Proof. apply omap_app. Qed.

Lemma rendered_errors_app tr1 tr2 :
  rendered_errors (tr1 ++ tr2) = (rendered_errors tr1 ++ rendered_errors tr2)%list.
Proof. apply omap_app. Qed.

Lemma form_events_inputs c M : rendered_inputs (form_events c M) = form_widgets M.
Proof. reflexivity. Qed.

Lemma form_events_quiet c M :
  predict_calls (form_events c M) = [] /\ rendered_errors (form_events c M) = [].
Proof. split; reflexivity. Qed.

(** With the three artifacts loaded and every widget accepted, the run
    arrives at line 139 with the form's values in [user_inputs]. *)
Lemma run_reaches_line_139 w m F M :
  youtube_revenue_model_joblib w = Returns m ->
  model_features_joblib w = Returns F ->
  feature_means_joblib w = Returns M ->
  Forall (accepted w) (form_widgets M) ->
  exists tr,
    run w = (prepare_input ;; prediction_button w ;; page_footer)
              (Globals (Some m) (Some F) (Some M) (Some (entered w M))
                       None None None page tr) /\
    rendered_inputs tr = form_widgets M /\
    predict_calls tr = [] /\
    rendered_errors tr = [].
Proof.
  intros Hm HF HM Hacc. unfold run, YT_Performance_Model.
  erewrite bind_Ret; [| reflexivity].
  erewrite bind_Ret; [| apply (load_artifacts_returns w m F M); assumption].
  erewrite bind_Ret; [| reflexivity].
  erewrite bind_Ret; [| apply (input_form_returns w _ M); [reflexivity | exact Hacc]].
  eexists. split; [reflexivity |].
  cbn [log unbound trace current model model_features feature_means user_inputs
       input_df_dict input_df prediction].
  rewrite !rendered_inputs_app, !predict_calls_app, !rendered_errors_app.
  rewrite form_events_inputs.
  destruct (form_events_quiet page M) as [-> ->].
  repeat split.
Qed.

(** ** Lines 150-169: the button and the footer *)

Lemma page_footer_returns m fs ms ui d df p tr :
  page_footer (Globals m fs ms ui d df p page tr) =
  (Ret tt, Globals m fs ms ui d df p page (tr ++ footer_events)).
Proof.
  unfold page_footer, st.write, st.markdown, st.info, st.render, bind, log. simpl.
  by rewrite <- !app_assoc.
Qed.

Lemma footer_events_quiet :
  rendered_inputs footer_events = [] /\
  predict_calls footer_events = [] /\
  rendered_errors footer_events = [].
Proof. repeat split. Qed.

Lemma prediction_not_clicked w m fs ms ui d df p c tr :
  clicked w "Predict Estimated Revenue" = false ->
  prediction_button w (Globals m fs ms ui d df p c tr) =
  (Ret tt, Globals m fs ms ui d df p c (tr ++ button_events c)).
Proof.
  intros Hc. unfold prediction_button, st.write, st.button, st.render, bind, ret, log.
  simpl. rewrite Hc. by rewrite <- !app_assoc.
Qed.

Lemma prediction_raises w m fs ms ui d df p c tr e :
  clicked w "Predict Estimated Revenue" = true ->
  predict m df = Raises e ->
  prediction_button w (Globals (Some m) fs ms ui d (Some df) p c tr) =
  if isinstance e "Exception"
  then (Ret tt, Globals (Some m) fs ms ui d (Some df) p c
                  (tr ++ button_events c
                      ++ [Predict df; Render c (El_error (prediction_error e))]))
  else (Exc e, Globals (Some m) fs ms ui d (Some df) p c
                  (tr ++ button_events c ++ [Predict df])).
Proof.
  intros Hc He.
  unfold prediction_button, st.write, st.button, st.render, call_predict,
    try_except, bind, ret, name, log.
  simpl. rewrite Hc. simpl. rewrite He. simpl.
  destruct (isinstance e "Exception"); simpl; unfold st.error, st.render, log; simpl;
    by rewrite <- !app_assoc.
Qed.

Lemma prediction_returns w m fs ms ui d df p c tr y ys :
  clicked w "Predict Estimated Revenue" = true ->
  predict m df = Returns (y :: ys) ->
  prediction_button w (Globals (Some m) fs ms ui d (Some df) p c tr) =
  (Ret tt, Globals (Some m) fs ms ui d (Some df) (Some y) c
             (tr ++ button_events c
                 ++ [Predict df;
                     Render c (El_success [Lit "**Predicted Estimated Revenue (USD): $";
                                           Fmt2f y; Lit "**"]);
                     Render c El_balloons])).
Proof.
  intros Hc He.
  unfold prediction_button, st.write, st.button, st.success, st.balloons, st.render,
    call_predict, item0, try_except, assign, set_prediction, bind, ret, name, log.
  simpl. rewrite Hc. simpl. rewrite He. simpl.
  by rewrite <- !app_assoc.
Qed.

(** ** What the statements leave alone *)

Lemma prepare_input_artifacts : keeps same_artifacts prepare_input.
Proof. unfold prepare_input, getitem. keeps_artifacts. Qed.

Lemma prediction_button_artifacts w : keeps same_artifacts (prediction_button w).
Proof.
  unfold prediction_button, st.write, st.button, st.success, st.error, st.balloons,
    call_predict, item0.
  keeps_artifacts.
Qed.

Lemma page_footer_artifacts : keeps same_artifacts page_footer.
Proof. unfold page_footer, st.write, st.markdown, st.info. keeps_artifacts. Qed.

(** Everything after line 22 leaves the three artifacts as they were loaded. *)
Lemma after_loading_artifacts w :
  keeps same_artifacts
    (page_header ;; input_form w ;; prepare_input ;; prediction_button w ;; page_footer).
Proof.
  apply (keeps_bind _ same_artifacts_trans); [apply page_header_artifacts | intros _].
  apply (keeps_bind _ same_artifacts_trans); [apply input_form_artifacts | intros _].
  apply (keeps_bind _ same_artifacts_trans); [apply prepare_input_artifacts | intros _].
  apply (keeps_bind _ same_artifacts_trans); [apply prediction_button_artifacts | intros _].
  apply page_footer_artifacts.
Qed.

Lemma same_inputs_refl g : same_inputs g g.
Proof. reflexivity. Qed.

Lemma same_inputs_trans g1 g2 g3 : same_inputs g1 g2 -> same_inputs g2 g3 -> same_inputs g1 g3.
Proof. unfold same_inputs. congruence. Qed.

Ltac keeps_inputs :=
  keeps_walk same_inputs_refl same_inputs_trans;
  try (unfold same_inputs; simpl; rewrite ?rendered_inputs_app; simpl;
       rewrite ?app_nil_r; reflexivity).

(** No statement after the form shows a number widget. *)
Lemma after_form_inputs w :
  keeps same_inputs (prepare_input ;; prediction_button w ;; page_footer).
Proof.
  unfold prepare_input, getitem, prediction_button, page_footer,
    st.write, st.button, st.success, st.error, st.balloons, st.markdown, st.info,
    call_predict, item0.
  keeps_inputs.
Qed.

Lemma same_vector_refl g : same_vector g g.
Proof. by unfold same_vector. Qed.

Lemma same_vector_trans g1 g2 g3 : same_vector g1 g2 -> same_vector g2 g3 -> same_vector g1 g3.
Proof. unfold same_vector. intros (-> & -> & ->) (-> & -> & ->). auto. Qed.

(** The button and the footer read the vector; they do not change it. *)
Lemma after_construction_vector w :
  keeps same_vector (prediction_button w ;; page_footer).
Proof.
  unfold prediction_button, page_footer,
    st.write, st.button, st.success, st.error, st.balloons, st.markdown, st.info,
    call_predict, item0.
  keeps_walk same_vector_refl same_vector_trans;
    unfold same_vector; simpl; auto.
Qed.

(** [predict] is called at most once, after the click, with [input_df]. *)
Lemma prediction_button_calls w m fs ms ui d df p c tr :
  predict_calls
    (trace (snd (prediction_button w (Globals (Some m) fs ms ui d (Some df) p c tr)))) =
  (predict_calls tr ++
   if clicked w "Predict Estimated Revenue" then [df] else [])%list.
Proof.
  destruct (clicked w "Predict Estimated Revenue") eqn:Hc.
  - destruct (predict m df) as [[| y ys] | e] eqn:He.
    + unfold prediction_button, st.write, st.button, st.error, st.render,
        call_predict, item0, try_except, bind, ret, name, log.
      simpl. rewrite Hc. simpl. rewrite He. simpl.
      rewrite !predict_calls_app. simpl. by rewrite !app_nil_r.
    + rewrite (prediction_returns w m fs ms ui d df p c tr y ys Hc He). simpl.
      rewrite !predict_calls_app. simpl. done.
    + rewrite (prediction_raises w m fs ms ui d df p c tr e Hc He).
      destruct (isinstance e "Exception"); simpl;
        rewrite !predict_calls_app; simpl; done.
  - rewrite (prediction_not_clicked w (Some m) fs ms ui d (Some df) p c tr Hc). simpl.
    rewrite predict_calls_app. simpl. done.
Qed.

Lemma page_footer_calls g :
  predict_calls (trace (snd (page_footer g))) = predict_calls (trace g).
Proof.
  unfold page_footer, st.write, st.markdown, st.info, st.render, bind, log. simpl.
  rewrite !predict_calls_app. simpl. by rewrite !app_nil_r.
Qed.

Lemma bind_snd {A B} (c : script A) (k : A -> script B) g :
  snd (bind c k g) =
  match fst (c g) with
  | Ret a => snd (k a (snd (c g)))
  | _ => snd (c g)
  end.
Proof. unfold bind. by destruct (c g) as [[a | e |] g']. Qed.

(** * The claims *)

(** C1: the constructed vector gives every expected feature [f] the value
    [U[f]] when the user's dict has the key [f], and the mean [M[f]]
    otherwise; with means Views 1000, Subscribers 50 and 0 elsewhere, the
    model expecting Views, Subscribers, Likes and the one override
    Views = 5000, the vector is 5000, 50, 0 in that order, both for lines
    139-147 run on that override alone and for the whole script when the user
    types 5000 into the Views widget and nothing else. *)
Theorem vector_construction :
  (forall g F M U,
     model_features g = Some F ->
     feature_means g = Some M ->
     user_inputs g = Some U ->
     covers M F ->
     NoDup (dict.keys U) ->
     fst (prepare_input g) = Ret tt /\
     input_df (snd (prepare_input g)) =
       Some (DataFrame_ F
               [map (fun f => match dict.get U f with
                              | Some u => Some u
                              | None => M !! f
                              end) F])) /\
  input_df (snd (prepare_input
                   (Globals None (Some scenario_features) (Some scenario_means)
                            (Some [("Views", 5000%Q)]) None None None page []))) =
    Some (DataFrame_ ["Views"; "Subscribers"; "Likes"]
                     [[Some 5000%Q; Some 50%Q; Some 0%Q]]) /\
  input_df (snd (run (scenario_world (constant_model 42%Q) false))) =
    Some (DataFrame_ ["Views"; "Subscribers"; "Likes"]
                     [[Some 5000%Q; Some 50%Q; Some 0%Q]]).
Proof.
  split; [| split; vm_compute; reflexivity].
  intros [m fs ms ui d df p c tr] F M U HF HM HU Hc Hnd.
  simpl in HF, HM, HU. subst fs ms ui.
  rewrite (prepare_input_returns m F M U d df p c tr Hc). simpl.
  split; [reflexivity |]. unfold constructed, pd.DataFrame. simpl.
  do 3 f_equal. apply map_ext_in. intros f Hin.
  apply vector_dict_lookup; [exact Hc | exact Hnd | by apply list_elem_of_In].
Qed.

Lemma vector_construction_scenario :
  input_df (snd (prepare_input
                   (Globals None (Some scenario_features) (Some scenario_means)
                            (Some [("Views", 5000%Q); ("Shares", 7%Q)]) None None None
                            page []))) =
    Some (DataFrame_ ["Views"; "Subscribers"; "Likes"]
                     [[Some 5000%Q; Some 50%Q; Some 0%Q]]).
Proof.
  destruct vector_construction as [general _].
  destruct (general
              (Globals None (Some scenario_features) (Some scenario_means)
                       (Some [("Views", 5000%Q); ("Shares", 7%Q)]) None None None page [])
              scenario_features scenario_means [("Views", 5000%Q); ("Shares", 7%Q)])
    as [_ Hdf].
  - reflexivity.
  - reflexivity.
  - reflexivity.
  - compute_done.
  - compute_done.
  - rewrite Hdf. vm_compute. reflexivity.
Defined.

(** From line 139 on, with the means covering the features: the run is the
    button and the footer, executed on the constructed vector. *)
Lemma run_reaches_line_150 w m F M :
  youtube_revenue_model_joblib w = Returns m ->
  model_features_joblib w = Returns F ->
  feature_means_joblib w = Returns M ->
  Forall (accepted w) (form_widgets M) ->
  covers M F ->
  exists tr,
    run w = (prediction_button w ;; page_footer)
              (Globals (Some m) (Some F) (Some M) (Some (entered w M))
                       (Some (vector_dict M F (entered w M)))
                       (Some (constructed M F (entered w M))) None page tr) /\
    rendered_inputs tr = form_widgets M /\
    predict_calls tr = [] /\
    rendered_errors tr = [].
Proof.
  intros Hm HF HM Hacc Hc.
  destruct (run_reaches_line_139 w m F M Hm HF HM Hacc) as (tr & Hrun & Htr).
  exists tr. split; [| exact Htr]. rewrite Hrun.
  erewrite bind_Ret; [reflexivity |]. by apply prepare_input_returns.
Qed.

(** With the means covering the features the run ends with the frame bound. *)
Lemma run_binds_input_df w m F M :
  youtube_revenue_model_joblib w = Returns m ->
  model_features_joblib w = Returns F ->
  feature_means_joblib w = Returns M ->
  Forall (accepted w) (form_widgets M) ->
  covers M F ->
  input_df (snd (run w)) = Some (constructed M F (entered w M)).
Proof.
  intros Hm HF HM Hacc Hc.
  destruct (run_reaches_line_150 w m F M Hm HF HM Hacc Hc) as (tr & Hrun & _).
  rewrite Hrun.
  destruct (after_construction_vector w
              (Globals (Some m) (Some F) (Some M) (Some (entered w M))
                 (Some (vector_dict M F (entered w M)))
                 (Some (constructed M F (entered w M))) None page tr)) as (_ & _ & Hdf).
  exact Hdf.
Qed.

Lemma entered_keys w M : dict.keys (entered w M) = displayed_features.
Proof. reflexivity. Qed.

(** What the form's dict holds under a displayed key. *)
Lemma dict_get_fields w M (fields : list (string * option Q * Q)) fld :
  NoDup (fields.*1.*1) -> fld ∈ fields ->
  dict.get (map (fun f => (f.1.1, answer w (field_widget M f))) fields) fld.1.1 =
  Some (answer w (field_widget M fld)).
Proof.
  induction fields as [| f0 fields IH]; intros Hnd Hin.
  - by apply elem_of_nil in Hin.
  - simpl in Hnd. apply NoDup_cons in Hnd. destruct Hnd as [Hf0 Hnd].
    apply elem_of_cons in Hin. simpl. destruct Hin as [-> | Hin].
    + by rewrite decide_True.
    + rewrite decide_False; [by apply IH |].
      intros Heq. apply Hf0. rewrite Heq.
      apply list_elem_of_fmap. exists fld.1. split; [done |].
      apply list_elem_of_fmap. by exists fld.
Qed.

Lemma form_fields_NoDup : NoDup displayed_features.
Proof. compute_done. Qed.

Lemma dict_get_entered w M fld :
  fld ∈ form_fields ->
  dict.get (entered w M) fld.1.1 = Some (answer w (field_widget M fld)).
Proof. apply dict_get_fields. exact form_fields_NoDup. Qed.

Lemma displayed_field f :
  f ∈ displayed_features -> exists fld, fld ∈ form_fields /\ fld.1.1 = f.
Proof.
  unfold displayed_features. intros Hin.
  apply list_elem_of_fmap in Hin. destruct Hin as (kx & -> & Hin).
  apply list_elem_of_fmap in Hin. destruct Hin as (fld & -> & Hin).
  by exists fld.
Qed.

Lemma entered_NoDup w M : NoDup (dict.keys (entered w M)).
Proof. rewrite entered_keys. exact form_fields_NoDup. Qed.

(** The cell of an expected feature: the widget's value if the form displays
    the feature, its mean if not. *)
Lemma vector_dict_entered w M F f :
  covers M F -> f ∈ F ->
  vector_dict M F (entered w M) !! f =
    match dict.get (entered w M) f with
    | Some u => Some u
    | None => M !! f
    end.
Proof. intros Hc Hin. apply vector_dict_lookup; [exact Hc | apply entered_NoDup | exact Hin]. Qed.

(** C2: whatever the user entered in the eleven inputs, the frame built for
    [predict] has the model's expected feature names as its columns, in the
    model's order, and one row with one cell per column; the cell under each
    column is a number (never a missing value) and it is the value of the
    feature that column names: what the feature's widget returned if the form
    displays the feature, its mean if not.  Each expected name occurs exactly
    once among the columns (the expected names being distinct), and it is
    this frame that [predict] receives. *)
Theorem column_order w m F M :
  youtube_revenue_model_joblib w = Returns m ->
  model_features_joblib w = Returns F ->
  feature_means_joblib w = Returns M ->
  Forall (accepted w) (form_widgets M) ->
  covers M F ->
  exists df row,
    input_df (snd (run w)) = Some df /\
    columns df = F /\
    rows df = [row] /\
    Forall (fun row => length row = length F) (rows df) /\
    (forall i f, F !! i = Some f ->
       exists v,
         row !! i = Some (Some v) /\
         (f ∉ displayed_features -> M !! f = Some v) /\
         (forall fld, fld ∈ form_fields -> fld.1.1 = f ->
            widget w (field_widget M fld) = Returns v)) /\
    (NoDup F -> forall f, f ∈ F -> count_occ string_dec (columns df) f = 1) /\
    predict_calls (trace (snd (run w))) =
      if clicked w "Predict Estimated Revenue" then [df] else [].
Proof.
  intros Hm HF HM Hacc Hc.
  destruct (run_reaches_line_150 w m F M Hm HF HM Hacc Hc) as (tr & Hrun & _ & Hcalls & _).
  exists (constructed M F (entered w M)).
  exists (map (fun c => vector_dict M F (entered w M) !! c) F).
  split; [by apply (run_binds_input_df w m F M) |].
  split; [reflexivity |]. split; [reflexivity |].
  split; [| split; [| split]].
  - unfold constructed, pd.DataFrame. simpl. constructor; [| constructor].
    by rewrite length_map.
  - intros i f Hi.
    assert (Hin : f ∈ F) by (apply list_elem_of_lookup; eauto).
    change (map ?h F) with (h <$> F). rewrite list_lookup_fmap, Hi. simpl.
    rewrite vector_dict_entered by assumption.
    destruct (decide (f ∈ displayed_features)) as [Hd | Hd].
    + destruct (displayed_field f Hd) as (fld & Hfld & <-).
      rewrite dict_get_entered by exact Hfld.
      exists (answer w (field_widget M fld)).
      split; [reflexivity |]. split; [done |].
      intros fld' Hfld' Heq.
      pose proof (dict_get_entered w M fld' Hfld') as Hg'.
      rewrite Heq, dict_get_entered in Hg' by exact Hfld.
      injection Hg' as Hg'. rewrite Hg'.
      assert (Ha : accepted w (field_widget M fld')).
      { apply (proj1 (Forall_forall _ _) Hacc).
        unfold form_widgets. change (map ?h ?l) with (h <$> l).
        apply list_elem_of_fmap. by exists fld'. }
      destruct Ha as [v' Hv']. unfold answer. by rewrite Hv'.
    + rewrite dict_get_absent by (by rewrite entered_keys).
      apply (proj1 (Forall_forall _ _) Hc) in Hin. destruct Hin as [mean Hmean].
      exists mean. split; [by rewrite Hmean |]. split; [done |].
      intros fld Hfld Heq. exfalso. apply Hd. rewrite <- Heq.
      unfold displayed_features.
      apply list_elem_of_fmap. exists fld.1. split; [done |].
      apply list_elem_of_fmap. by exists fld.
  - intros Hnd f Hin. simpl.
    apply NoDup_ListNoDup in Hnd.
    apply (proj1 (NoDup_count_occ' string_dec F) Hnd). by apply list_elem_of_In.
  - rewrite Hrun. rewrite bind_snd.
    pose proof (prediction_button_calls w m (Some F) (Some M) (Some (entered w M))
                  (Some (vector_dict M F (entered w M)))
                  (constructed M F (entered w M)) None page tr) as Hb.
    rewrite Hcalls in Hb. simpl in Hb.
    destruct (fst (prediction_button w _)); [| exact Hb | exact Hb].
    rewrite page_footer_calls. exact Hb.
Qed.

Lemma column_order_scenario :
  exists df row,
    input_df (snd (run (scenario_world (constant_model 42%Q) true))) = Some df /\
    columns df = scenario_features /\
    rows df = [row] /\
    Forall (fun row => length row = length scenario_features) (rows df) /\
    (forall i f, scenario_features !! i = Some f ->
       exists v,
         row !! i = Some (Some v) /\
         (f ∉ displayed_features -> scenario_means !! f = Some v) /\
         (forall fld, fld ∈ form_fields -> fld.1.1 = f ->
            widget (scenario_world (constant_model 42%Q) true)
                   (field_widget scenario_means fld) = Returns v)) /\
    (NoDup scenario_features ->
     forall f, f ∈ scenario_features -> count_occ string_dec (columns df) f = 1) /\
    predict_calls (trace (snd (run (scenario_world (constant_model 42%Q) true)))) = [df].
Proof.
  apply (column_order (scenario_world (constant_model 42%Q) true)
           (constant_model 42%Q) scenario_features scenario_means).
  - reflexivity.
  - reflexivity.
  - reflexivity.
  - unfold accepted. repeat constructor; eexists; vm_compute; reflexivity.
  - compute_done.
Defined.

(** C3: a feature the model expects and the form does not display has its
    historical mean in the constructed vector, whatever the user entered. *)
Theorem undisplayed_features_keep_mean w m F M :
  youtube_revenue_model_joblib w = Returns m ->
  model_features_joblib w = Returns F ->
  feature_means_joblib w = Returns M ->
  Forall (accepted w) (form_widgets M) ->
  covers M F ->
  exists df row,
    input_df (snd (run w)) = Some df /\
    columns df = F /\
    rows df = [row] /\
    forall i f, F !! i = Some f -> f ∉ displayed_features ->
      exists mean, M !! f = Some mean /\ row !! i = Some (Some mean).
Proof.
  intros Hm HF HM Hacc Hc.
  destruct (run_reaches_line_150 w m F M Hm HF HM Hacc Hc) as (tr & Hrun & _).
  exists (constructed M F (entered w M)).
  exists (map (fun c => vector_dict M F (entered w M) !! c) F).
  rewrite Hrun. split; [| split; [reflexivity | split; [reflexivity |]]].
  - destruct (after_construction_vector w
                (Globals (Some m) (Some F) (Some M) (Some (entered w M))
                   (Some (vector_dict M F (entered w M)))
                   (Some (constructed M F (entered w M))) None page tr)) as (_ & _ & Hdf).
    exact Hdf.
  - intros i f Hi Hnd.
    assert (Hin : f ∈ F) by (apply list_elem_of_lookup; eauto).
    pose proof Hc as Hf. apply Forall_forall with (x := f) in Hf; [| exact Hin].
    destruct Hf as [mean Hmean]. exists mean. split; [exact Hmean |].
    change (map ?h F) with (h <$> F). rewrite list_lookup_fmap, Hi. simpl.
    rewrite vector_dict_untouched; [by rewrite Hmean | exact Hc | exact Hin |].
    by rewrite entered_keys.
Qed.

Lemma undisplayed_features_keep_mean_dislikes :
  exists df row,
    input_df (snd (run (World (Returns (constant_model 42%Q))
                              (Returns ["Views"; "Dislikes"])
                              (Returns (<["Dislikes" := 3%Q]> scenario_means))
                              (streamlit_widget (typed_only "Total Views" 5000%Q))
                              (fun _ => false)))) = Some df /\
    columns df = ["Views"; "Dislikes"] /\
    rows df = [row] /\
    forall i f, ["Views"; "Dislikes"] !! i = Some f -> f ∉ displayed_features ->
      exists mean, (<["Dislikes" := 3%Q]> scenario_means) !! f = Some mean /\
                   row !! i = Some (Some mean).
Proof.
  apply (undisplayed_features_keep_mean _ (constant_model 42%Q)).
  - reflexivity.
  - reflexivity.
  - reflexivity.
  - unfold accepted. repeat constructor; eexists; vm_compute; reflexivity.
  - compute_done.
Defined.

(** C8: an entry of the user's dict whose key the model does not expect is
    dropped without a trace: lines 139-147 end the same way, with the same
    dict and the same frame, as they do without the entry, and they show
    nothing on the page. *)
Theorem unexpected_override_dropped g F M U1 U2 k v :
  model_features g = Some F ->
  feature_means g = Some M ->
  k ∉ F ->
  let with_entry := prepare_input (set_user_inputs (U1 ++ (k, v) :: U2) g) in
  let without := prepare_input (set_user_inputs (U1 ++ U2) g) in
  fst with_entry = fst without /\
  input_df_dict (snd with_entry) = input_df_dict (snd without) /\
  input_df (snd with_entry) = input_df (snd without) /\
  trace (snd with_entry) = trace g.
Proof.
  destruct g as [m fs ms ui d df p c tr]. simpl. intros -> -> Hk.
  unfold set_user_inputs. simpl.
  destruct (decide (covers M F)) as [Hc | Hc].
  - rewrite !(prepare_input_returns m F M _ d df p c tr Hc). simpl.
    assert (Heq : vector_dict M F (U1 ++ (k, v) :: U2) = vector_dict M F (U1 ++ U2)).
    { unfold vector_dict. apply overridden_drop.
      rewrite mean_initialized_lookup by exact Hc.
      by rewrite decide_False. }
    unfold constructed. rewrite Heq. done.
  - destruct (prepare_input_raises F M Hc) as (f & _ & _ & Heq).
    rewrite !Heq. done.
Qed.

Lemma unexpected_override_dropped_shares :
  let g := Globals None (Some scenario_features) (Some scenario_means)
                   None None None None page [] in
  let with_entry :=
    prepare_input (set_user_inputs ([("Views", 5000%Q)] ++ ("Shares", 7%Q) :: []) g) in
  let without := prepare_input (set_user_inputs ([("Views", 5000%Q)] ++ []) g) in
  fst with_entry = fst without /\
  input_df_dict (snd with_entry) = input_df_dict (snd without) /\
  input_df (snd with_entry) = input_df (snd without) /\
  trace (snd with_entry) = trace g.
Proof.
  apply (unexpected_override_dropped
           (Globals None (Some scenario_features) (Some scenario_means)
                    None None None None page [])
           scenario_features scenario_means [("Views", 5000%Q)] [] "Shares" 7%Q).
  - reflexivity.
  - reflexivity.
  - compute_done.
Defined.

(** C9: the vector is built only when every expected feature has a mean.
    With the artifacts loaded and the form shown, a mean for every expected
    feature gives a frame; a feature without one makes line 139 raise
    [KeyError] for such a feature, which nothing catches: the run ends with
    it, no frame is built and [predict] is not called.  The same absent key
    read through [feature_means.get(key, 0)], as the widget defaults are,
    gives 0. *)
Theorem missing_mean_raises w m F M :
  youtube_revenue_model_joblib w = Returns m ->
  model_features_joblib w = Returns F ->
  feature_means_joblib w = Returns M ->
  Forall (accepted w) (form_widgets M) ->
  (covers M F -> exists df, input_df (snd (run w)) = Some df) /\
  (forall f0, f0 ∈ F -> M !! f0 = None ->
     exists f, f ∈ F /\ M !! f = None /\
       fst (run w) = Exc (KeyError f) /\
       input_df (snd (run w)) = None /\
       predict_calls (trace (snd (run w))) = [] /\
       get_default M f 0 = 0%Q).
Proof.
  intros Hm HF HM Hacc. split.
  - intros Hc. eexists. by apply (run_binds_input_df w m F M).
  - intros f0 Hin0 Hnone0.
    assert (Hc : ~ covers M F).
    { intros Hc. apply Forall_forall with (x := f0) in Hc; [| exact Hin0].
      rewrite Hnone0 in Hc. by destruct Hc. }
    destruct (prepare_input_raises F M Hc) as (f & Hin & Hnone & Heq).
    destruct (run_reaches_line_139 w m F M Hm HF HM Hacc) as (tr & Hrun & _ & Hcalls & _).
    exists f. rewrite Hrun. erewrite bind_Exc; [| apply Heq]. simpl.
    unfold get_default. rewrite Hnone. done.
Qed.

Lemma missing_mean_raises_revenue :
  (covers scenario_means ["Views"; "Estimated Revenue (USD)"; "Likes"] ->
   exists df, input_df (snd (run uncovered_world)) = Some df) /\
  (forall f0, f0 ∈ ["Views"; "Estimated Revenue (USD)"; "Likes"] ->
     scenario_means !! f0 = None ->
     exists f, f ∈ ["Views"; "Estimated Revenue (USD)"; "Likes"] /\
       scenario_means !! f = None /\
       fst (run uncovered_world) = Exc (KeyError f) /\
       input_df (snd (run uncovered_world)) = None /\
       predict_calls (trace (snd (run uncovered_world))) = [] /\
       get_default scenario_means f 0 = 0%Q).
Proof.
  apply (missing_mean_raises uncovered_world (constant_model 42%Q)).
  - reflexivity.
  - reflexivity.
  - reflexivity.
  - unfold accepted. repeat constructor; eexists; vm_compute; reflexivity.
Defined.

(** C10: no statement of the script changes the loaded model, feature list
    or means.  Whatever the user enters, whether or not the button is
    pressed and whatever [predict] does, a run ends with the three names
    bound to what was loaded, and the statements after the loading keep them
    from any state.  Every press of the button is one such run. *)
Theorem artifacts_never_mutated w m F M :
  youtube_revenue_model_joblib w = Returns m ->
  model_features_joblib w = Returns F ->
  feature_means_joblib w = Returns M ->
  (model (snd (run w)) = Some m /\
   model_features (snd (run w)) = Some F /\
   feature_means (snd (run w)) = Some M) /\
  keeps same_artifacts
    (page_header ;; input_form w ;; prepare_input ;; prediction_button w ;; page_footer).
Proof.
  intros Hm HF HM. split; [| apply after_loading_artifacts].
  unfold run, YT_Performance_Model.
  erewrite bind_Ret; [| reflexivity].
  erewrite bind_Ret; [| apply (load_artifacts_returns w m F M); assumption].
  match goal with
  | |- context [snd (?c ?g)] =>
      destruct (after_loading_artifacts w g) as (H1 & H2 & H3)
  end.
  rewrite H1, H2, H3. done.
Qed.

Lemma artifacts_never_mutated_scenario :
  (model (snd (run (scenario_world (constant_model 42%Q) true))) =
     Some (constant_model 42%Q) /\
   model_features (snd (run (scenario_world (constant_model 42%Q) true))) =
     Some scenario_features /\
   feature_means (snd (run (scenario_world (constant_model 42%Q) true))) =
     Some scenario_means) /\
  keeps same_artifacts
    (page_header ;; input_form (scenario_world (constant_model 42%Q) true) ;;
     prepare_input ;; prediction_button (scenario_world (constant_model 42%Q) true) ;;
     page_footer).
Proof.
  apply (artifacts_never_mutated (scenario_world (constant_model 42%Q) true));
    reflexivity.
Defined.

(** C6, as stated, fails: three artifacts that load do not make the form
    render eleven inputs.  With a mean of -3 for Likes the widget's default is
    below its [min_value] of 0, [st.number_input] raises at the fifth widget
    and the page has the four inputs before it; with a mean of 104 for the
    average view percentage the default is above the [max_value] of 100 and
    the page has nine inputs.  In both runs the three loads succeed, the run
    ends with the widget's exception and no frame is built. *)
Lemma loaded_means_outside_bounds :
  (first_failure negative_likes_world = None /\
   (exists e, fst (run negative_likes_world) = Exc e) /\
   rendered_inputs (trace (snd (run negative_likes_world))) =
     take 4 (form_widgets negative_likes_means) /\
   length (rendered_inputs (trace (snd (run negative_likes_world)))) = 4 /\
   rendered_inputs (trace (snd (run negative_likes_world))) <>
     form_widgets negative_likes_means /\
   input_df (snd (run negative_likes_world)) = None) /\
  (first_failure high_percentage_world = None /\
   (exists e, fst (run high_percentage_world) = Exc e) /\
   rendered_inputs (trace (snd (run high_percentage_world))) =
     take 9 (form_widgets high_percentage_means) /\
   length (rendered_inputs (trace (snd (run high_percentage_world)))) = 9 /\
   rendered_inputs (trace (snd (run high_percentage_world))) <>
     form_widgets high_percentage_means /\
   input_df (snd (run high_percentage_world)) = None).
Proof.
  assert (H4 : rendered_inputs (trace (snd (run negative_likes_world))) =
               take 4 (form_widgets negative_likes_means)) by (vm_compute; reflexivity).
  assert (H9 : rendered_inputs (trace (snd (run high_percentage_world))) =
               take 9 (form_widgets high_percentage_means)) by (vm_compute; reflexivity).
  split.
  - split; [vm_compute; reflexivity |].
    split; [eexists; vm_compute; reflexivity |].
    split; [exact H4 |].
    split; [rewrite H4; reflexivity |].
    split; [| vm_compute; reflexivity].
    rewrite H4. intros Heq. apply (f_equal length) in Heq. discriminate Heq.
  - split; [vm_compute; reflexivity |].
    split; [eexists; vm_compute; reflexivity |].
    split; [exact H9 |].
    split; [rewrite H9; reflexivity |].
    split; [| vm_compute; reflexivity].
    rewrite H9. intros Heq. apply (f_equal length) in Heq. discriminate Heq.
Qed.

(** C6 (amended): with the three artifacts loaded and each of the eleven
    widgets accepted by [st.number_input] (the library refuses a default
    outside the widget's bounds), a run shows exactly the eleven number
    inputs of the form, in source order, and the default of each is the mean
    of its feature, or 0 when the means have no such key. *)
Theorem form_defaults w m F M :
  youtube_revenue_model_joblib w = Returns m ->
  model_features_joblib w = Returns F ->
  feature_means_joblib w = Returns M ->
  Forall (accepted w) (form_widgets M) ->
  rendered_inputs (trace (snd (run w))) = form_widgets M /\
  length (form_widgets M) = 11 /\
  Forall2 (fun key a =>
             label a = label_of key /\
             value a = match M !! key with Some mean => mean | None => 0%Q end)
          displayed_features (form_widgets M).
Proof.
  intros Hm HF HM Hacc.
  destruct (run_reaches_line_139 w m F M Hm HF HM Hacc) as (tr & Hrun & Htr & _).
  split; [| split].
  - rewrite Hrun.
    match goal with
    | |- context [snd (?c ?g)] => pose proof (after_form_inputs w g) as Hsame
    end.
    unfold same_inputs in Hsame. rewrite Hsame. exact Htr.
  - reflexivity.
  - unfold displayed_features, form_widgets, form_fields, field_widget, get_default.
    simpl. repeat constructor; simpl; by destruct (M !! _).
Qed.

Lemma form_defaults_scenario :
  rendered_inputs (trace (snd (run (scenario_world (constant_model 42%Q) false)))) =
    form_widgets scenario_means /\
  length (form_widgets scenario_means) = 11 /\
  Forall2 (fun key a =>
             label a = label_of key /\
             value a = match scenario_means !! key with
                       | Some mean => mean
                       | None => 0%Q
                       end)
          displayed_features (form_widgets scenario_means).
Proof.
  apply (form_defaults (scenario_world (constant_model 42%Q) false)
           (constant_model 42%Q) scenario_features).
  - reflexivity.
  - reflexivity.
  - reflexivity.
  - unfold accepted. repeat constructor; eexists; vm_compute; reflexivity.
Defined.

Lemma stays_bounded_refl g : stays_bounded g g.
Proof. by unfold stays_bounded. Qed.

Lemma stays_bounded_trans g1 g2 g3 :
  stays_bounded g1 g2 -> stays_bounded g2 g3 -> stays_bounded g1 g3.
Proof. unfold stays_bounded. auto. Qed.

Lemma setitem_within_bounds U k v :
  Forall within_bounds U -> within_bounds (k, v) ->
  Forall within_bounds (dict.setitem U k v).
Proof.
  intros HU Hkv. induction U as [| [k' v'] U IH]; simpl.
  - by constructor.
  - apply Forall_cons_1 in HU. destruct HU as [Hk' HU].
    destruct (decide (k' = k)) as [-> | Hne]; constructor; auto.
Qed.

Lemma input_field_bounded w key mx stp :
  widget_contract w ->
  (key ∈ percentage_features -> mx = Some 100%Q) ->
  (label_of key ∈ percentage_labels -> mx = Some 100%Q) ->
  keeps stays_bounded (input_field w key (Some 0%Q) mx stp).
Proof.
  intros Hw Hkey Hlbl [m fs ms ui d df p c tr] [HU Htr]. simpl in HU, Htr.
  unfold input_field, display_name, label_of in *.
  destruct (list_find _ input_features_display_names) as [[i [k lbl]] |];
    [| by split].
  simpl in Hlbl. unfold bind at 1, ret at 1. unfold bind at 1, name at 1. simpl.
  destruct ms as [M |]; [| by split].
  unfold st.number_input, bind at 1. unfold bind at 1.
  destruct (widget w _) as [v | e] eqn:Hv; simpl; [| by split].
  apply Hw in Hv. simpl in Hv. destruct Hv as [Hlo Hhi].
  assert (Hwidget : Forall bounded_widget
            (rendered_inputs (tr ++ [Render c (El_number_input
               (NumberInput lbl (Some 0%Q) mx (float (get_default M key 0)) stp "%.2f"))]))).
  { rewrite rendered_inputs_app. apply Forall_app. split; [exact Htr |].
    simpl. constructor; [| constructor]. split; [reflexivity | exact Hlbl]. }
  destruct ui as [U |]; simpl; [| by split].
  split; [| exact Hwidget]. simpl. intros U' [= <-].
  apply setitem_within_bounds; [by apply HU |].
  split; simpl; [by apply Hlo |]. intros Hp. apply Hhi. by apply Hkey.
Qed.

Lemma script_stays_bounded w : widget_contract w -> keeps stays_bounded (YT_Performance_Model w).
Proof.
  intros Hw.
  unfold YT_Performance_Model, configure_page, load_artifacts, page_header, input_form,
    prepare_input, prediction_button, page_footer, joblib.load, call_predict, item0,
    getitem, st.set_page_config, st.title, st.markdown, st.write, st.info, st.success,
    st.error, st.balloons, st.button, st.columns.
  keeps_walk stays_bounded_refl stays_bounded_trans.
  all: try (apply input_field_bounded; [exact Hw | |];
            first [ intros _; reflexivity
                  | intros Hin; exfalso; revert Hin;
                    lazymatch goal with |- ?P -> False => change (~ P) end;
                    compute_done ]).
  all: unfold stays_bounded, form_bounded; simpl;
    rewrite ?rendered_inputs_app; simpl; rewrite ?app_nil_r.
  all: try tauto.
  all: intros [_ Htr]; split; [intros U [= <-]; constructor | exact Htr].
Qed.

Lemma streamlit_widget_contract typed m fs ms press :
  widget_contract (World m fs ms (streamlit_widget typed) press).
Proof.
  intros a v. simpl. unfold streamlit_widget.
  destruct (in_range a (value a)) eqn:Hdef; [| discriminate].
  assert (Hok : forall x, in_range a x = true ->
            (forall lo, min_value a = Some lo -> (lo <= x)%Q) /\
            (forall hi, max_value a = Some hi -> (x <= hi)%Q)).
  { intros x Hx. unfold in_range in Hx. apply andb_prop in Hx. destruct Hx as [Hlo Hhi].
    split.
    - intros lo Hmin. rewrite Hmin in Hlo. by apply Qle_bool_iff.
    - intros hi Hmax. rewrite Hmax in Hhi. by apply Qle_bool_iff. }
  destruct (typed (label a)) as [x |].
  - destruct (in_range a x) eqn:Hx; intros [= <-]; by apply Hok.
  - intros [= <-]. by apply Hok.
Qed.

(** C7: every number input of the form is asked for with a minimum of 0, and
    the two percentage inputs with a maximum of 100 as well; as the widget
    only returns values within the bounds it was given, no value below 0 and,
    for the two percentages, no value above 100 is ever stored in
    [user_inputs]. *)
Theorem form_values_bounded w :
  widget_contract w ->
  (forall U k v,
     user_inputs (snd (run w)) = Some U -> (k, v) ∈ U ->
     (0 <= v)%Q /\ (k ∈ percentage_features -> (v <= 100)%Q)) /\
  Forall (fun a => min_value a = Some 0%Q /\
                   (label a ∈ percentage_labels -> max_value a = Some 100%Q))
         (rendered_inputs (trace (snd (run w)))).
Proof.
  intros Hw.
  destruct (script_stays_bounded w Hw unbound) as [HU Htr].
  { split; [discriminate | constructor]. }
  split; [| exact Htr].
  intros U k v HUeq Hin. specialize (HU U HUeq).
  apply Forall_forall with (x := (k, v)) in HU; [exact HU | exact Hin].
Qed.

Lemma form_values_bounded_scenario :
  let w := World (Returns (constant_model 42%Q)) (Returns scenario_features)
                 (Returns scenario_means)
                 (streamlit_widget (typed_only "Average View Percentage (%)" 250%Q))
                 (fun _ => true) in
  widget_contract w /\
  (forall U k v,
     user_inputs (snd (run w)) = Some U -> (k, v) ∈ U ->
     (0 <= v)%Q /\ (k ∈ percentage_features -> (v <= 100)%Q)) /\
  Forall (fun a => min_value a = Some 0%Q /\
                   (label a ∈ percentage_labels -> max_value a = Some 100%Q))
         (rendered_inputs (trace (snd (run w)))).
Proof.
  split; [apply streamlit_widget_contract |].
  apply form_values_bounded. apply streamlit_widget_contract.
Defined.

(** C5, as stated, fails: an exception that is not an instance of Python's
    [Exception] class, here [KeyboardInterrupt] raised inside [predict] after
    the button press, is not caught by [except Exception]: [predict] is
    called with the vector, the run ends with the exception and no error box
    is shown. *)
Lemma keyboard_interrupt_escapes :
  let w := scenario_world (raising_model KeyboardInterrupt) true in
  clicked w "Predict Estimated Revenue" = true /\
  (forall df, predict (raising_model KeyboardInterrupt) df = Raises KeyboardInterrupt) /\
  predict_calls (trace (snd (run w))) =
    [DataFrame_ ["Views"; "Subscribers"; "Likes"] [[Some 5000%Q; Some 50%Q; Some 0%Q]]] /\
  fst (run w) = Exc KeyboardInterrupt /\
  rendered_errors (trace (snd (run w))) = [] /\
  ~ caught_and_shown w scenario_means KeyboardInterrupt.
Proof.
  cbv zeta. split; [reflexivity |]. split; [reflexivity |].
  split; [vm_compute; reflexivity |].
  split; [vm_compute; reflexivity |]. split; [vm_compute; reflexivity |].
  intros [Hret _]. vm_compute in Hret. discriminate.
Qed.

(** C5 (amended): every exception raised by [predict] after the button press
    that is an instance of Python's [Exception] class is caught: the script
    runs to its last line, the eleven inputs are on the page, and the one
    error box shown carries the exception's text after the fixed prefix. *)
Theorem prediction_failure_shown w m F M e :
  youtube_revenue_model_joblib w = Returns m ->
  model_features_joblib w = Returns F ->
  feature_means_joblib w = Returns M ->
  Forall (accepted w) (form_widgets M) ->
  covers M F ->
  clicked w "Predict Estimated Revenue" = true ->
  (forall df, input_df (snd (run w)) = Some df -> predict m df = Raises e) ->
  isinstance e "Exception" = true ->
  caught_and_shown w M e.
Proof.
  intros Hm HF HM Hacc Hc Hclick He Hexc.
  specialize (He _ (run_binds_input_df w m F M Hm HF HM Hacc Hc)).
  destruct (run_reaches_line_150 w m F M Hm HF HM Hacc Hc)
    as (tr & Hrun & Hinputs & _ & Herrors).
  unfold caught_and_shown. rewrite Hrun.
  erewrite bind_Ret.
  2:{ rewrite (prediction_raises w m _ _ _ _ _ _ _ _ e Hclick He). rewrite Hexc.
      reflexivity. }
  rewrite page_footer_returns. simpl.
  destruct footer_events_quiet as (Hfi & _ & Hfe).
  rewrite !rendered_inputs_app, !rendered_errors_app, Hinputs, Herrors, Hfi, Hfe.
  simpl. rewrite ?app_nil_r. done.
Qed.

Lemma prediction_failure_shown_value_error :
  caught_and_shown
    (scenario_world (raising_model (ValueError "X has 3 features, but the model expects 40"))
                    true)
    scenario_means (ValueError "X has 3 features, but the model expects 40").
Proof.
  apply (prediction_failure_shown _
           (raising_model (ValueError "X has 3 features, but the model expects 40"))
           scenario_features).
  - reflexivity.
  - reflexivity.
  - reflexivity.
  - unfold accepted. repeat constructor; eexists; vm_compute; reflexivity.
  - compute_done.
  - reflexivity.
  - intros df _. reflexivity.
  - reflexivity.
Defined.

(** C4, as stated, fails, in two ways.  A file that is there but cannot be
    read makes [joblib.load] raise something other than [FileNotFoundError];
    the [except] clause of line 20 does not catch it, the script shows no
    error box and the run ends with the exception.  And when a file is
    missing, the error box does not tell which: with only the means missing
    its text names the model file, which loaded, and the page is the one
    shown when only the model is missing. *)
Lemma unreadable_artifact_not_reported :
  (is_Some (load_error unreadable_features_world the_features) /\
   fst (run unreadable_features_world) =
     Exc (PermissionError "[Errno 13] Permission denied: 'model_features.joblib'") /\
   rendered_errors (trace (snd (run unreadable_features_world))) = [] /\
   ~ halts_naming_missing unreadable_features_world) /\
  (is_Some (load_error missing_means_world the_means) /\
   load_error missing_means_world the_model = None /\
   rendered_errors (trace (snd (run missing_means_world))) =
     rendered_errors (trace (snd (run missing_model_world))) /\
   ~ halts_naming_missing missing_means_world).
Proof.
  split.
  - split; [by eexists |].
    split; [vm_compute; reflexivity |].
    split; [vm_compute; reflexivity |].
    intros (_ & _ & body & Hbody & _). vm_compute in Hbody. discriminate.
  - split; [by eexists |].
    split; [reflexivity |].
    split; [vm_compute; reflexivity |].
    intros (_ & _ & body & Hbody & Hwhich).
    assert (Hmodel : mentions body (file_of the_model) = true).
    { vm_compute in Hbody. injection Hbody as <-. vm_compute. reflexivity. }
    apply Hwhich in Hmodel. destruct Hmodel as [e He]. discriminate.
Qed.

(** Lines 15-22 when a load fails: the first failure decides how they end. *)
Lemma load_artifacts_fails w a e m0 fs0 ms0 ui d df p c tr :
  first_failure w = Some (a, e) ->
  exists g',
    load_artifacts w (Globals m0 fs0 ms0 ui d df p c tr) =
      (if isinstance e "FileNotFoundError" then Stop else Exc e, g') /\
    rendered_inputs (trace g') = rendered_inputs tr /\
    predict_calls (trace g') = predict_calls tr /\
    rendered_errors (trace g') =
      (rendered_errors tr ++
       if isinstance e "FileNotFoundError" then [[Lit files_not_found_message]] else [])%list.
Proof.
  intros Hfail. unfold first_failure, load_error in Hfail.
  unfold load_artifacts, try_except, joblib.load, bind, call, raise, ret, assign,
    st.error, st.stop, st.render, log.
  cbn [model model_features feature_means user_inputs input_df_dict input_df
       prediction current trace fst snd].
  destruct (youtube_revenue_model_joblib w) as [m | em].
  2:{ injection Hfail as <- <-.
      cbn [set_model model model_features feature_means user_inputs input_df_dict
           input_df prediction current trace fst snd].
      destruct (isinstance em "FileNotFoundError");
        (eexists; split; [reflexivity |]);
        cbn [trace]; rewrite ?rendered_inputs_app, ?predict_calls_app, ?rendered_errors_app;
        simpl; rewrite ?app_nil_r; done. }
  destruct (model_features_joblib w) as [fs | ef].
  2:{ injection Hfail as <- <-.
      cbn [set_model model model_features feature_means user_inputs input_df_dict
           input_df prediction current trace fst snd].
      destruct (isinstance ef "FileNotFoundError");
        (eexists; split; [reflexivity |]);
        cbn [trace]; rewrite ?rendered_inputs_app, ?predict_calls_app, ?rendered_errors_app;
        simpl; rewrite ?app_nil_r; done. }
  destruct (feature_means_joblib w) as [ms | ems]; [discriminate |].
  injection Hfail as <- <-.
  cbn [set_model set_model_features model model_features feature_means user_inputs
       input_df_dict input_df prediction current trace fst snd].
  destruct (isinstance ems "FileNotFoundError");
    (eexists; split; [reflexivity |]);
    cbn [trace]; rewrite ?rendered_inputs_app, ?predict_calls_app, ?rendered_errors_app;
    simpl; rewrite ?app_nil_r; done.
Qed.

(** C4 (amended): when a load fails, the first load to fail decides.  If it
    raises [FileNotFoundError], the run shows one error box with a fixed text
    that names all three files and stops; if it raises anything else, the
    exception leaves the script and no error box is shown.  Either way no
    number input is shown and [predict] is not called. *)
Theorem failed_load_stops_before_form w a e :
  first_failure w = Some (a, e) ->
  rendered_inputs (trace (snd (run w))) = [] /\
  predict_calls (trace (snd (run w))) = [] /\
  (if isinstance e "FileNotFoundError"
   then fst (run w) = Stop /\
        rendered_errors (trace (snd (run w))) = [[Lit files_not_found_message]]
   else fst (run w) = Exc e /\
        rendered_errors (trace (snd (run w))) = []) /\
  (forall a', mentions [Lit files_not_found_message] (file_of a') = true).
Proof.
  intros Hfail.
  assert (Hnames : forall a', mentions [Lit files_not_found_message] (file_of a') = true).
  { intros []; vm_compute; reflexivity. }
  unfold run, YT_Performance_Model.
  erewrite bind_Ret; [| reflexivity].
  match goal with
  | |- context [bind (load_artifacts w) _ ?g] =>
      destruct (load_artifacts_fails w a e None None None None None None None page
                  (trace g) Hfail) as (g' & Hload & Hi & Hp & He)
  end.
  change (snd (configure_page unbound))
    with (Globals None None None None None None None page
                  (trace (snd (configure_page unbound)))) in *.
  destruct (isinstance e "FileNotFoundError").
  - erewrite bind_Stop; [| exact Hload]. cbn [fst snd]. rewrite Hi, Hp, He.
    repeat split; [exact Hnames].
  - erewrite bind_Exc; [| exact Hload]. cbn [fst snd]. rewrite Hi, Hp, He.
    repeat split; [exact Hnames].
Qed.

Lemma failed_load_stops_before_form_missing_means :
  first_failure missing_means_world =
    Some (the_means,
          FileNotFoundError "[Errno 2] No such file or directory: 'feature_means.joblib'") /\
  rendered_inputs (trace (snd (run missing_means_world))) = [] /\
  predict_calls (trace (snd (run missing_means_world))) = [] /\
  (fst (run missing_means_world) = Stop /\
   rendered_errors (trace (snd (run missing_means_world))) =
     [[Lit files_not_found_message]]) /\
  (forall a', mentions [Lit files_not_found_message] (file_of a') = true).
Proof.
  split; [reflexivity |].
  apply (failed_load_stops_before_form missing_means_world the_means
           (FileNotFoundError
              "[Errno 2] No such file or directory: 'feature_means.joblib'")).
  reflexivity.
Defined.

(** * The rest of the page *)

Lemma rendered_buttons_app tr1 tr2 :
  rendered_buttons (tr1 ++ tr2) = (rendered_buttons tr1 ++ rendered_buttons tr2)%list.
Proof. apply omap_app. Qed.

Lemma rendered_successes_app tr1 tr2 :
  rendered_successes (tr1 ++ tr2) =
  (rendered_successes tr1 ++ rendered_successes tr2)%list.
Proof. apply omap_app. Qed.

Lemma load_attempts_app tr1 tr2 :
  load_attempts (tr1 ++ tr2) = (load_attempts tr1 ++ load_attempts tr2)%list.
Proof. apply omap_app. Qed.

(** Pushes the five readings of a trace through its pieces. *)
Ltac read_trace :=
  rewrite ?rendered_inputs_app, ?predict_calls_app, ?rendered_errors_app,
    ?rendered_buttons_app, ?rendered_successes_app, ?load_attempts_app.

(** The run down to line 139, with the page so far spelled out. *)
Lemma run_to_line_139 w m F M :
  youtube_revenue_model_joblib w = Returns m ->
  model_features_joblib w = Returns F ->
  feature_means_joblib w = Returns M ->
  Forall (accepted w) (form_widgets M) ->
  run w = (prepare_input ;; prediction_button w ;; page_footer)
            (Globals (Some m) (Some F) (Some M) (Some (entered w M))
                     None None None page (page_with_form M)).
Proof.
  intros Hm HF HM Hacc. unfold run, YT_Performance_Model.
  erewrite bind_Ret; [| reflexivity].
  erewrite bind_Ret; [| apply (load_artifacts_returns w m F M); assumption].
  erewrite bind_Ret; [| reflexivity].
  erewrite bind_Ret; [| apply (input_form_returns w _ M); [reflexivity | exact Hacc]].
  cbn [log unbound trace current model model_features feature_means user_inputs
       input_df_dict input_df prediction].
  do 2 f_equal.
Qed.

Lemma run_to_line_150 w m F M :
  youtube_revenue_model_joblib w = Returns m ->
  model_features_joblib w = Returns F ->
  feature_means_joblib w = Returns M ->
  Forall (accepted w) (form_widgets M) ->
  covers M F ->
  run w = (prediction_button w ;; page_footer)
            (Globals (Some m) (Some F) (Some M) (Some (entered w M))
                     (Some (vector_dict M F (entered w M)))
                     (Some (constructed M F (entered w M))) None page (page_with_form M)).
Proof.
  intros Hm HF HM Hacc Hc. rewrite (run_to_line_139 w m F M Hm HF HM Hacc).
  erewrite bind_Ret; [reflexivity |]. by apply prepare_input_returns.
Qed.

Lemma prediction_empty w m fs ms ui d df p c tr :
  clicked w "Predict Estimated Revenue" = true ->
  predict m df = Returns [] ->
  prediction_button w (Globals (Some m) fs ms ui d (Some df) p c tr) =
  (Ret tt, Globals (Some m) fs ms ui d (Some df) p c
             (tr ++ button_events c
                 ++ [Predict df;
                     Render c (El_error
                       (prediction_error
                          (IndexError "index 0 is out of bounds for axis 0 with size 0")))])).
Proof.
  intros Hc He.
  unfold prediction_button, st.write, st.button, st.error, st.render,
    call_predict, item0, try_except, bind, ret, name, log.
  simpl. rewrite Hc. simpl. rewrite He. simpl.
  by rewrite <- !app_assoc.
Qed.

(** How the run ends once line 150 is reached. *)
Lemma run_not_clicked w m F M :
  youtube_revenue_model_joblib w = Returns m ->
  model_features_joblib w = Returns F ->
  feature_means_joblib w = Returns M ->
  Forall (accepted w) (form_widgets M) ->
  covers M F ->
  clicked w "Predict Estimated Revenue" = false ->
  run w =
  (Ret tt,
   Globals (Some m) (Some F) (Some M) (Some (entered w M))
           (Some (vector_dict M F (entered w M)))
           (Some (constructed M F (entered w M))) None page
           (page_with_form M ++ button_events page ++ footer_events)).
Proof.
  intros Hm HF HM Hacc Hc Hclick. rewrite (run_to_line_150 w m F M Hm HF HM Hacc Hc).
  erewrite bind_Ret; [| by apply prediction_not_clicked].
  rewrite page_footer_returns. by rewrite <- !app_assoc.
Qed.

Lemma run_predict_returns w m F M y ys :
  youtube_revenue_model_joblib w = Returns m ->
  model_features_joblib w = Returns F ->
  feature_means_joblib w = Returns M ->
  Forall (accepted w) (form_widgets M) ->
  covers M F ->
  clicked w "Predict Estimated Revenue" = true ->
  predict m (constructed M F (entered w M)) = Returns (y :: ys) ->
  run w =
  (Ret tt,
   Globals (Some m) (Some F) (Some M) (Some (entered w M))
           (Some (vector_dict M F (entered w M)))
           (Some (constructed M F (entered w M))) (Some y) page
           (page_with_form M ++ button_events page
              ++ [Predict (constructed M F (entered w M));
                  Render page (El_success (prediction_message y));
                  Render page El_balloons]
              ++ footer_events)).
Proof.
  intros Hm HF HM Hacc Hc Hclick Hy. rewrite (run_to_line_150 w m F M Hm HF HM Hacc Hc).
  erewrite bind_Ret; [| by eapply prediction_returns].
  rewrite page_footer_returns. unfold prediction_message. by rewrite <- !app_assoc.
Qed.

Lemma run_predict_empty w m F M :
  youtube_revenue_model_joblib w = Returns m ->
  model_features_joblib w = Returns F ->
  feature_means_joblib w = Returns M ->
  Forall (accepted w) (form_widgets M) ->
  covers M F ->
  clicked w "Predict Estimated Revenue" = true ->
  predict m (constructed M F (entered w M)) = Returns [] ->
  run w =
  (Ret tt,
   Globals (Some m) (Some F) (Some M) (Some (entered w M))
           (Some (vector_dict M F (entered w M)))
           (Some (constructed M F (entered w M))) None page
           (page_with_form M ++ button_events page
              ++ [Predict (constructed M F (entered w M));
                  Render page (El_error
                    (prediction_error
                       (IndexError "index 0 is out of bounds for axis 0 with size 0")))]
              ++ footer_events)).
Proof.
  intros Hm HF HM Hacc Hc Hclick Hy. rewrite (run_to_line_150 w m F M Hm HF HM Hacc Hc).
  erewrite bind_Ret; [| by apply prediction_empty].
  rewrite page_footer_returns. by rewrite <- !app_assoc.
Qed.

Lemma run_predict_raises w m F M e :
  youtube_revenue_model_joblib w = Returns m ->
  model_features_joblib w = Returns F ->
  feature_means_joblib w = Returns M ->
  Forall (accepted w) (form_widgets M) ->
  covers M F ->
  clicked w "Predict Estimated Revenue" = true ->
  predict m (constructed M F (entered w M)) = Raises e ->
  run w =
  if isinstance e "Exception"
  then (Ret tt,
        Globals (Some m) (Some F) (Some M) (Some (entered w M))
                (Some (vector_dict M F (entered w M)))
                (Some (constructed M F (entered w M))) None page
                (page_with_form M ++ button_events page
                   ++ [Predict (constructed M F (entered w M));
                       Render page (El_error (prediction_error e))]
                   ++ footer_events))
  else (Exc e,
        Globals (Some m) (Some F) (Some M) (Some (entered w M))
                (Some (vector_dict M F (entered w M)))
                (Some (constructed M F (entered w M))) None page
                (page_with_form M ++ button_events page
                   ++ [Predict (constructed M F (entered w M))])).
Proof.
  intros Hm HF HM Hacc Hc Hclick He. rewrite (run_to_line_150 w m F M Hm HF HM Hacc Hc).
  pose proof (prediction_raises w m (Some F) (Some M) (Some (entered w M))
                (Some (vector_dict M F (entered w M))) (constructed M F (entered w M))
                None page (page_with_form M) e Hclick He) as Hb.
  destruct (isinstance e "Exception").
  - erewrite bind_Ret; [| exact Hb].
    rewrite page_footer_returns. by rewrite <- !app_assoc.
  - erewrite bind_Exc; [| exact Hb]. done.
Qed.

Lemma run_uncovered w m F M :
  youtube_revenue_model_joblib w = Returns m ->
  model_features_joblib w = Returns F ->
  feature_means_joblib w = Returns M ->
  Forall (accepted w) (form_widgets M) ->
  ~ covers M F ->
  exists f, f ∈ F /\ M !! f = None /\
    run w =
    (Exc (KeyError f),
     Globals (Some m) (Some F) (Some M) (Some (entered w M))
             None None None page (page_with_form M)).
Proof.
  intros Hm HF HM Hacc Hc.
  destruct (prepare_input_raises F M Hc) as (f & Hin & Hnone & Heq).
  exists f. split; [exact Hin |]. split; [exact Hnone |].
  rewrite (run_to_line_139 w m F M Hm HF HM Hacc).
  erewrite bind_Exc; [reflexivity | apply Heq].
Qed.

(** The readings of the pieces of the page. *)
Lemma page_with_form_readings M :
  rendered_inputs (page_with_form M) = form_widgets M /\
  predict_calls (page_with_form M) = [] /\
  rendered_errors (page_with_form M) = [] /\
  rendered_buttons (page_with_form M) = [] /\
  rendered_successes (page_with_form M) = [loaded_message] /\
  load_attempts (page_with_form M) =
    ["youtube_revenue_model.joblib"; "model_features.joblib"; "feature_means.joblib"].
Proof. repeat split. Qed.

Lemma button_events_readings c :
  rendered_inputs (button_events c) = [] /\
  predict_calls (button_events c) = [] /\
  rendered_errors (button_events c) = [] /\
  rendered_buttons (button_events c) = ["Predict Estimated Revenue"] /\
  rendered_successes (button_events c) = [] /\
  load_attempts (button_events c) = [].
Proof. repeat split. Qed.

Lemma footer_events_readings :
  rendered_inputs footer_events = [] /\
  predict_calls footer_events = [] /\
  rendered_errors footer_events = [] /\
  rendered_buttons footer_events = [] /\
  rendered_successes footer_events = [] /\
  load_attempts footer_events = [].
Proof. repeat split. Qed.

(** ** A widget the library refuses *)

Lemma input_field_raises w key mn mx stp m fs M ui d df p c tr lbl e :
  display_name key = ret lbl ->
  widget w (NumberInput lbl mn mx (get_default M key 0) stp "%.2f") = Raises e ->
  input_field w key mn mx stp (Globals m fs (Some M) ui d df p c tr) =
    (Exc e, Globals m fs (Some M) ui d df p c tr).
Proof.
  intros Hl Hw. unfold input_field. rewrite Hl.
  unfold st.number_input, float, bind, ret, name, call, st.render, assign. simpl.
  rewrite Hw. reflexivity.
Qed.

Lemma with_Exc {A} c (body : script A) m fs ms ui d df p cur tr e m' fs' ms' ui' d' df' p' c' tr' :
  body (Globals m fs ms ui d df p c tr) = (Exc e, Globals m' fs' ms' ui' d' df' p' c' tr') ->
  with_ c body (Globals m fs ms ui d df p cur tr) =
    (Exc e, Globals m' fs' ms' ui' d' df' p' cur tr').
Proof. intros H. unfold with_, set_current. simpl. now rewrite H. Qed.

Ltac field_raise :=
  eapply input_field_raises; [ reflexivity | eassumption ].

(** Runs a column of the form up to the statement whose widget is refused. *)
Ltac column_refused :=
  eapply with_Exc;
  repeat (erewrite bind_Ret; [| field_step]);
  first [ field_raise | erewrite bind_Exc; [reflexivity | field_raise] ].

Lemma input_form_refused w M shown e m fs ui d df p c tr :
  first_refused w (form_widgets M) = Some (shown, e) ->
  exists U tr',
    input_form w (Globals m fs (Some M) ui d df p c tr) =
      (Exc e, Globals m fs (Some M) (Some U) d df p c (tr ++ tr')) /\
    rendered_inputs tr' = shown /\
    predict_calls tr' = [] /\
    rendered_errors tr' = [] /\
    rendered_buttons tr' = [] /\
    rendered_successes tr' = [] /\
    load_attempts tr' = [] /\
    dict.keys U = take (length shown) displayed_features.
Proof.
  intros Href.
  unfold form_widgets, form_fields, field_widget in Href. simpl in Href.
  repeat match type of Href with
         | context [widget w ?a] => destruct (widget w a) eqn:?
         end;
    try discriminate; injection Href as <- <-.
  all: eexists _, _; split;
    [ unfold input_form;
      erewrite bind_Ret; [| reflexivity];
      erewrite bind_Ret; [| reflexivity];
      change (map column (seq 0 2)) with [column 0; column 1]; cbv beta iota;
      unfold log, set_user_inputs;
      cbn [model model_features feature_means user_inputs input_df_dict input_df
           prediction current trace];
      first [ erewrite bind_Exc; [| column_refused]
            | erewrite bind_Ret;
              [| eapply with_Ret; repeat (erewrite bind_Ret; [| field_step]); field_step];
              etransitivity; [column_refused |] ];
      rewrite <- ?app_assoc; reflexivity
    | repeat split ].
Qed.

Lemma first_refused_None w ws :
  first_refused w ws = None <-> Forall (accepted w) ws.
Proof.
  induction ws as [| a ws IH]; simpl.
  - split; [constructor | done].
  - destruct (widget w a) as [v | e] eqn:Ha.
    + destruct (first_refused w ws) as [[shown e] |].
      * split; [done |]. intros H. apply Forall_cons_1 in H. destruct H as [_ H].
        apply IH in H. discriminate.
      * split; [| done]. intros _. constructor; [by exists v | by apply IH].
    + split; [done |]. intros H. apply Forall_cons_1 in H.
      destruct H as [[v Hv] _]. congruence.
Qed.

(** [first_refused] finds the widget that raises after widgets that return. *)
Lemma first_refused_split w shown a rest e :
  Forall (accepted w) shown ->
  widget w a = Raises e ->
  first_refused w (shown ++ a :: rest) = Some (shown, e).
Proof.
  intros Hshown Ha. induction shown as [| b shown IH]; simpl.
  - by rewrite Ha.
  - apply Forall_cons_1 in Hshown. destruct Hshown as [[v Hv] Hshown].
    rewrite Hv, IH by exact Hshown. done.
Qed.

Lemma run_refused w m F M shown e :
  youtube_revenue_model_joblib w = Returns m ->
  model_features_joblib w = Returns F ->
  feature_means_joblib w = Returns M ->
  first_refused w (form_widgets M) = Some (shown, e) ->
  exists U tr',
    run w =
      (Exc e,
       Globals (Some m) (Some F) (Some M) (Some U) None None None page
               (config_events ++ loaded_events ++ header_events ++ tr')) /\
    rendered_inputs tr' = shown /\
    predict_calls tr' = [] /\
    rendered_errors tr' = [] /\
    rendered_buttons tr' = [] /\
    rendered_successes tr' = [] /\
    load_attempts tr' = [] /\
    dict.keys U = take (length shown) displayed_features.
Proof.
  intros Hm HF HM Href.
  destruct (input_form_refused w M shown e (Some m) (Some F) None None None None page
              (config_events ++ loaded_events ++ header_events) Href)
    as (U & tr' & Hform & Hrest).
  exists U, tr'. split; [| exact Hrest].
  unfold run, YT_Performance_Model.
  erewrite bind_Ret; [| reflexivity].
  erewrite bind_Ret; [| apply (load_artifacts_returns w m F M); assumption].
  erewrite bind_Ret; [| reflexivity].
  erewrite bind_Exc; [| etransitivity; [| exact Hform]; do 2 f_equal].
  by rewrite <- !app_assoc.
Qed.

(** Lines 15-22 when a load fails, with the trace spelled out. *)
Lemma load_artifacts_fails_trace w a e m0 fs0 ms0 ui d df p c tr :
  first_failure w = Some (a, e) ->
  exists m' fs' ms',
    load_artifacts w (Globals m0 fs0 ms0 ui d df p c tr) =
      (if isinstance e "FileNotFoundError" then Stop else Exc e,
       Globals m' fs' ms' ui d df p c
         (tr ++ map JoblibLoad (map file_of (attempted w))
             ++ if isinstance e "FileNotFoundError"
                then [Render c (El_error [Lit files_not_found_message])]
                else [])).
Proof.
  intros Hfail. unfold attempted. rewrite Hfail.
  unfold first_failure, load_error in Hfail.
  unfold load_artifacts, try_except, joblib.load, bind, call, raise, ret, assign,
    st.error, st.stop, st.render, log.
  cbn [model model_features feature_means user_inputs input_df_dict input_df
       prediction current trace fst snd].
  destruct (youtube_revenue_model_joblib w) as [m | em].
  2:{ injection Hfail as <- <-.
      cbn [set_model model model_features feature_means user_inputs input_df_dict
           input_df prediction current trace fst snd map file_of].
      destruct (isinstance em "FileNotFoundError");
        eexists _, _, _; rewrite <- ?app_assoc; rewrite ?app_nil_r; reflexivity. }
  destruct (model_features_joblib w) as [fs | ef].
  2:{ injection Hfail as <- <-.
      cbn [set_model model model_features feature_means user_inputs input_df_dict
           input_df prediction current trace fst snd map file_of].
      destruct (isinstance ef "FileNotFoundError");
        eexists _, _, _; rewrite <- ?app_assoc; rewrite ?app_nil_r; reflexivity. }
  destruct (feature_means_joblib w) as [ms | ems]; [discriminate |].
  injection Hfail as <- <-.
  cbn [set_model set_model_features model model_features feature_means user_inputs
       input_df_dict input_df prediction current trace fst snd map file_of].
  destruct (isinstance ems "FileNotFoundError");
    eexists _, _, _; rewrite <- ?app_assoc; rewrite ?app_nil_r; reflexivity.
Qed.

Lemma run_load_failed w a e :
  first_failure w = Some (a, e) ->
  exists m' fs' ms',
    run w =
      (if isinstance e "FileNotFoundError" then Stop else Exc e,
       Globals m' fs' ms' None None None None page
         (config_events ++ map JoblibLoad (map file_of (attempted w))
            ++ if isinstance e "FileNotFoundError"
               then [Render page (El_error [Lit files_not_found_message])]
               else [])).
Proof.
  intros Hfail.
  destruct (load_artifacts_fails_trace w a e None None None None None None None page
              config_events Hfail) as (m' & fs' & ms' & Hload).
  exists m', fs', ms'. unfold run, YT_Performance_Model.
  erewrite bind_Ret; [| reflexivity].
  change (snd (configure_page unbound))
    with (Globals None None None None None None None page config_events).
  destruct (isinstance e "FileNotFoundError").
  - erewrite bind_Stop; [reflexivity | exact Hload].
  - erewrite bind_Exc; [reflexivity | exact Hload].
Qed.

(** The three loads succeed exactly when none fails. *)
Lemma first_failure_None w :
  first_failure w = None ->
  exists m F M,
    youtube_revenue_model_joblib w = Returns m /\
    model_features_joblib w = Returns F /\
    feature_means_joblib w = Returns M.
Proof.
  unfold first_failure, load_error.
  destruct (youtube_revenue_model_joblib w) as [m |]; [| discriminate].
  destruct (model_features_joblib w) as [F |]; [| discriminate].
  destruct (feature_means_joblib w) as [M |]; [| discriminate].
  intros _. by exists m, F, M.
Qed.

Lemma first_failure_loaded w m F M :
  youtube_revenue_model_joblib w = Returns m ->
  model_features_joblib w = Returns F ->
  feature_means_joblib w = Returns M ->
  first_failure w = None.
Proof. intros Hm HF HM. unfold first_failure, load_error. by rewrite Hm, HF, HM. Qed.

(** How a world can be: a load fails, or the artifacts load and then a
    widget is refused, a mean is missing, or line 150 is reached. *)
Lemma world_cases w :
  (exists a e, first_failure w = Some (a, e)) \/
  (exists m F M,
     youtube_revenue_model_joblib w = Returns m /\
     model_features_joblib w = Returns F /\
     feature_means_joblib w = Returns M /\
     ((exists shown e, first_refused w (form_widgets M) = Some (shown, e)) \/
      (Forall (accepted w) (form_widgets M) /\ ~ covers M F) \/
      (Forall (accepted w) (form_widgets M) /\ covers M F))).
Proof.
  destruct (first_failure w) as [[a e] |] eqn:Hfail; [left; by exists a, e |].
  right. destruct (first_failure_None w Hfail) as (m & F & M & Hm & HF & HM).
  exists m, F, M. split; [exact Hm |]. split; [exact HF |]. split; [exact HM |].
  destruct (first_refused w (form_widgets M)) as [[shown e] |] eqn:Href.
  - left. by exists shown, e.
  - right. apply first_refused_None in Href.
    destruct (decide (covers M F)); [right | left]; done.
Qed.

Lemma same_loads_refl g : same_loads g g.
Proof. reflexivity. Qed.

Lemma same_loads_trans g1 g2 g3 : same_loads g1 g2 -> same_loads g2 g3 -> same_loads g1 g3.
Proof. unfold same_loads. congruence. Qed.

(** Nothing after line 22 loads a file. *)
Lemma after_loading_loads w :
  keeps same_loads
    (page_header ;; input_form w ;; prepare_input ;; prediction_button w ;; page_footer).
Proof.
  unfold page_header, input_form, input_field, display_name, prepare_input, getitem,
    prediction_button, page_footer, st.number_input, st.columns,
    st.title, st.write, st.button, st.success, st.error, st.balloons, st.markdown, st.info,
    call_predict, item0.
  keeps_walk same_loads_refl same_loads_trans;
    unfold same_loads; simpl; rewrite ?load_attempts_app; simpl;
    rewrite ?app_nil_r; reflexivity.
Qed.

(** * Further properties of the script *)

(** X1: a press of the button on which [predict] returns a non-empty array
    shows the whole page: the form, the button, one success box with the
    first element of the array formatted to two decimals, the balloons and
    the footer; [prediction] is bound to that element and no error box is
    shown. *)
Theorem successful_prediction w m F M y ys :
  youtube_revenue_model_joblib w = Returns m ->
  model_features_joblib w = Returns F ->
  feature_means_joblib w = Returns M ->
  Forall (accepted w) (form_widgets M) ->
  covers M F ->
  clicked w "Predict Estimated Revenue" = true ->
  (forall df, input_df (snd (run w)) = Some df -> predict m df = Returns (y :: ys)) ->
  fst (run w) = Ret tt /\
  prediction (snd (run w)) = Some y /\
  rendered_successes (trace (snd (run w))) = [loaded_message; prediction_message y] /\
  rendered_errors (trace (snd (run w))) = [] /\
  exists df,
    input_df (snd (run w)) = Some df /\
    trace (snd (run w)) =
      (page_with_form M ++ button_events page
        ++ [Predict df; Render page (El_success (prediction_message y));
            Render page El_balloons]
        ++ footer_events)%list.
Proof.
  intros Hm HF HM Hacc Hc Hclick Hy.
  specialize (Hy _ (run_binds_input_df w m F M Hm HF HM Hacc Hc)).
  rewrite (run_predict_returns w m F M y ys Hm HF HM Hacc Hc Hclick Hy).
  cbn [fst snd prediction trace input_df].
  split; [done |]. split; [done |].
  split; [| split; [| by eexists]]; read_trace; reflexivity.
Qed.

Lemma successful_prediction_scenario :
  let w := scenario_world (constant_model 42%Q) true in
  fst (run w) = Ret tt /\
  prediction (snd (run w)) = Some 42%Q /\
  rendered_successes (trace (snd (run w))) = [loaded_message; prediction_message 42%Q] /\
  rendered_errors (trace (snd (run w))) = [] /\
  exists df,
    input_df (snd (run w)) = Some df /\
    trace (snd (run w)) =
      (page_with_form scenario_means ++ button_events page
        ++ [Predict df; Render page (El_success (prediction_message 42%Q));
            Render page El_balloons]
        ++ footer_events)%list.
Proof.
  apply (successful_prediction (scenario_world (constant_model 42%Q) true)
           (constant_model 42%Q) scenario_features scenario_means 42%Q []).
  - reflexivity.
  - reflexivity.
  - reflexivity.
  - unfold accepted. repeat constructor; eexists; vm_compute; reflexivity.
  - compute_done.
  - reflexivity.
  - intros df _. reflexivity.
Defined.

(** X2: a run without a press of the button never calls [predict]: the page
    is the form, the button and the footer, [prediction] stays unbound and
    the only success box is the one of the loading. *)
Theorem no_press_no_prediction w m F M :
  youtube_revenue_model_joblib w = Returns m ->
  model_features_joblib w = Returns F ->
  feature_means_joblib w = Returns M ->
  Forall (accepted w) (form_widgets M) ->
  covers M F ->
  clicked w "Predict Estimated Revenue" = false ->
  fst (run w) = Ret tt /\
  prediction (snd (run w)) = None /\
  predict_calls (trace (snd (run w))) = [] /\
  rendered_successes (trace (snd (run w))) = [loaded_message] /\
  rendered_errors (trace (snd (run w))) = [] /\
  trace (snd (run w)) = (page_with_form M ++ button_events page ++ footer_events)%list.
Proof.
  intros Hm HF HM Hacc Hc Hclick.
  rewrite (run_not_clicked w m F M Hm HF HM Hacc Hc Hclick).
  cbn [fst snd prediction trace].
  split; [done |]. split; [done |].
  split; [| split; [| split; [| done]]]; read_trace; reflexivity.
Qed.

Lemma no_press_no_prediction_scenario :
  let w := scenario_world (raising_model KeyboardInterrupt) false in
  fst (run w) = Ret tt /\
  prediction (snd (run w)) = None /\
  predict_calls (trace (snd (run w))) = [] /\
  rendered_successes (trace (snd (run w))) = [loaded_message] /\
  rendered_errors (trace (snd (run w))) = [] /\
  trace (snd (run w)) =
    (page_with_form scenario_means ++ button_events page ++ footer_events)%list.
Proof.
  apply (no_press_no_prediction (scenario_world (raising_model KeyboardInterrupt) false)
           (raising_model KeyboardInterrupt) scenario_features scenario_means).
  - reflexivity.
  - reflexivity.
  - reflexivity.
  - unfold accepted. repeat constructor; eexists; vm_compute; reflexivity.
  - compute_done.
  - reflexivity.
Defined.

(** X3: when [predict] returns an empty array, taking its first element
    raises [IndexError] inside the [try]: it is caught like a failure of
    [predict] itself, shown in one error box, and the script runs to its
    end with [prediction] unbound and no result box. *)
Theorem empty_prediction_reported w m F M :
  youtube_revenue_model_joblib w = Returns m ->
  model_features_joblib w = Returns F ->
  feature_means_joblib w = Returns M ->
  Forall (accepted w) (form_widgets M) ->
  covers M F ->
  clicked w "Predict Estimated Revenue" = true ->
  (forall df, input_df (snd (run w)) = Some df -> predict m df = Returns []) ->
  fst (run w) = Ret tt /\
  prediction (snd (run w)) = None /\
  rendered_successes (trace (snd (run w))) = [loaded_message] /\
  exists e,
    isinstance e "IndexError" = true /\
    rendered_errors (trace (snd (run w))) = [prediction_error e].
Proof.
  intros Hm HF HM Hacc Hc Hclick Hy.
  specialize (Hy _ (run_binds_input_df w m F M Hm HF HM Hacc Hc)).
  rewrite (run_predict_empty w m F M Hm HF HM Hacc Hc Hclick Hy).
  cbn [fst snd prediction trace].
  split; [done |]. split; [done |].
  split; [read_trace; reflexivity |].
  eexists. split; [| read_trace; reflexivity]. reflexivity.
Qed.

Lemma empty_prediction_reported_scenario :
  let w := scenario_world empty_model true in
  fst (run w) = Ret tt /\
  prediction (snd (run w)) = None /\
  rendered_successes (trace (snd (run w))) = [loaded_message] /\
  exists e,
    isinstance e "IndexError" = true /\
    rendered_errors (trace (snd (run w))) = [prediction_error e].
Proof.
  apply (empty_prediction_reported (scenario_world empty_model true)
           empty_model scenario_features scenario_means).
  - reflexivity.
  - reflexivity.
  - reflexivity.
  - unfold accepted. repeat constructor; eexists; vm_compute; reflexivity.
  - compute_done.
  - reflexivity.
  - intros df _. reflexivity.
Defined.

(** X4: when the user leaves every input at its default, the vector built
    for [predict] is the vector of the means, in the model's order. *)
Theorem defaults_give_means w m F M :
  youtube_revenue_model_joblib w = Returns m ->
  model_features_joblib w = Returns F ->
  feature_means_joblib w = Returns M ->
  Forall (fun a => widget w a = Returns (value a)) (form_widgets M) ->
  covers M F ->
  input_df (snd (run w)) = Some (DataFrame_ F [map (fun f => M !! f) F]).
Proof.
  intros Hm HF HM Hdef Hc.
  assert (Hacc : Forall (accepted w) (form_widgets M)).
  { eapply Forall_impl; [exact Hdef |]. intros a Ha. by exists (value a). }
  rewrite (run_binds_input_df w m F M Hm HF HM Hacc Hc).
  unfold constructed, pd.DataFrame. simpl. do 3 f_equal.
  apply map_ext_in. intros f Hin. apply list_elem_of_In in Hin.
  rewrite vector_dict_entered by assumption.
  destruct (decide (f ∈ displayed_features)) as [Hd | Hd].
  - destruct (displayed_field f Hd) as (fld & Hfld & <-).
    rewrite dict_get_entered by exact Hfld.
    assert (Ha : widget w (field_widget M fld) = Returns (value (field_widget M fld))).
    { apply Forall_forall with (x := field_widget M fld) in Hdef; [exact Hdef |].
      unfold form_widgets. apply list_elem_of_fmap. by exists fld. }
    unfold answer. rewrite Ha. simpl. unfold get_default.
    apply Forall_forall with (x := fld.1.1) in Hc; [| exact Hin].
    destruct Hc as [x ->]. done.
  - rewrite dict_get_absent; [done |]. by rewrite entered_keys.
Qed.

Lemma defaults_give_means_scenario :
  input_df (snd (run (untouched_world (constant_model 42%Q) true))) =
  Some (DataFrame_ scenario_features
          [map (fun f => scenario_means !! f) scenario_features]).
Proof.
  apply (defaults_give_means (untouched_world (constant_model 42%Q) true)
           (constant_model 42%Q) scenario_features scenario_means).
  - reflexivity.
  - reflexivity.
  - reflexivity.
  - repeat constructor; vm_compute; reflexivity.
  - compute_done.
Defined.

(** X5: a feature that the model expects and the form displays has, in the
    constructed vector, the value its widget returned in this run, not its
    mean. *)
Theorem displayed_feature_takes_entry w m F M :
  youtube_revenue_model_joblib w = Returns m ->
  model_features_joblib w = Returns F ->
  feature_means_joblib w = Returns M ->
  Forall (accepted w) (form_widgets M) ->
  covers M F ->
  exists df row,
    input_df (snd (run w)) = Some df /\
    rows df = [row] /\
    forall i fld v,
      F !! i = Some fld.1.1 ->
      fld ∈ form_fields ->
      widget w (field_widget M fld) = Returns v ->
      row !! i = Some (Some v).
Proof.
  intros Hm HF HM Hacc Hc.
  exists (constructed M F (entered w M)).
  exists (map (fun c => vector_dict M F (entered w M) !! c) F).
  split; [by apply (run_binds_input_df w m F M) |]. split; [reflexivity |].
  intros i fld v Hi Hfld Hv.
  assert (Hin : fld.1.1 ∈ F) by (apply list_elem_of_lookup; eauto).
  change (map ?h F) with (h <$> F). rewrite list_lookup_fmap, Hi. simpl.
  rewrite vector_dict_entered by assumption.
  rewrite dict_get_entered by exact Hfld.
  unfold answer. by rewrite Hv.
Qed.

Lemma displayed_feature_takes_entry_scenario :
  exists df row,
    input_df (snd (run (scenario_world (constant_model 42%Q) false))) = Some df /\
    rows df = [row] /\
    forall i fld v,
      scenario_features !! i = Some fld.1.1 ->
      fld ∈ form_fields ->
      widget (scenario_world (constant_model 42%Q) false)
             (field_widget scenario_means fld) = Returns v ->
      row !! i = Some (Some v).
Proof.
  apply (displayed_feature_takes_entry (scenario_world (constant_model 42%Q) false)
           (constant_model 42%Q) scenario_features scenario_means).
  - reflexivity.
  - reflexivity.
  - reflexivity.
  - unfold accepted. repeat constructor; eexists; vm_compute; reflexivity.
  - compute_done.
Defined.

(** X6: the constructed vector depends on the form only through the inputs
    of the features the model expects: two runs over the same feature list
    and means whose widgets agree on those inputs build the same frame,
    whatever the other widgets, the model and the button do. *)
Theorem vector_depends_on_expected_inputs w w' m m' F M :
  youtube_revenue_model_joblib w = Returns m ->
  model_features_joblib w = Returns F ->
  feature_means_joblib w = Returns M ->
  youtube_revenue_model_joblib w' = Returns m' ->
  model_features_joblib w' = Returns F ->
  feature_means_joblib w' = Returns M ->
  Forall (accepted w) (form_widgets M) ->
  Forall (accepted w') (form_widgets M) ->
  covers M F ->
  (forall fld, fld ∈ form_fields -> fld.1.1 ∈ F ->
     widget w (field_widget M fld) = widget w' (field_widget M fld)) ->
  input_df (snd (run w)) = input_df (snd (run w')).
Proof.
  intros Hm HF HM Hm' HF' HM' Hacc Hacc' Hc Hsame.
  rewrite (run_binds_input_df w m F M Hm HF HM Hacc Hc).
  rewrite (run_binds_input_df w' m' F M Hm' HF' HM' Hacc' Hc).
  unfold constructed, pd.DataFrame. simpl. do 3 f_equal.
  apply map_ext_in. intros f Hin. apply list_elem_of_In in Hin.
  rewrite !vector_dict_entered by assumption.
  destruct (decide (f ∈ displayed_features)) as [Hd | Hd].
  - destruct (displayed_field f Hd) as (fld & Hfld & <-).
    rewrite !dict_get_entered by exact Hfld.
    unfold answer. by rewrite (Hsame fld Hfld Hin).
  - rewrite !dict_get_absent; [done | by rewrite entered_keys | by rewrite entered_keys].
Qed.

Lemma vector_depends_on_expected_inputs_shares :
  input_df (snd (run (scenario_world (constant_model 42%Q) false))) =
  input_df (snd (run (World (Returns (raising_model KeyboardInterrupt))
                            (Returns scenario_features) (Returns scenario_means)
                            (streamlit_widget
                               (fun l => if decide (l = "Total Shares") then Some 9%Q
                                         else typed_only "Total Views" 5000%Q l))
                            (fun _ => true)))).
Proof.
  apply (vector_depends_on_expected_inputs _ _ (constant_model 42%Q)
           (raising_model KeyboardInterrupt) scenario_features scenario_means).
  - reflexivity.
  - reflexivity.
  - reflexivity.
  - reflexivity.
  - reflexivity.
  - reflexivity.
  - unfold accepted. repeat constructor; eexists; vm_compute; reflexivity.
  - unfold accepted. repeat constructor; eexists; vm_compute; reflexivity.
  - compute_done.
  - intros fld Hfld Hin.
    unfold form_fields in Hfld.
    repeat (apply elem_of_cons in Hfld; destruct Hfld as [-> | Hfld];
            [first [ reflexivity | exfalso; revert Hin; compute_done ] |]).
    by apply elem_of_nil in Hfld.
Defined.

(** X7: the three files are loaded in the order model, feature list, means,
    and loading stops at the first load that fails: a file after the failing
    one is never opened, and nothing after line 22 loads a file. *)
Theorem loads_in_order w :
  load_attempts (trace (snd (run w))) = map file_of (attempted w).
Proof.
  destruct (first_failure w) as [[a e] |] eqn:Hfail.
  - destruct (run_load_failed w a e Hfail) as (m' & fs' & ms' & ->).
    cbn [snd trace]. read_trace.
    destruct (isinstance e "FileNotFoundError"); cbn [load_attempts omap];
      rewrite ?app_nil_r;
      unfold attempted; rewrite Hfail; by destruct a.
  - destruct (first_failure_None w Hfail) as (m & F & M & Hm & HF & HM).
    unfold attempted. rewrite Hfail.
    unfold run, YT_Performance_Model.
    erewrite bind_Ret; [| reflexivity].
    erewrite bind_Ret; [| apply (load_artifacts_returns w m F M); assumption].
    match goal with
    | |- context [snd (?c ?g)] => rewrite (after_loading_loads w g)
    end.
    reflexivity.
Qed.

(** X8: when the library refuses a widget of the form, the exception is not
    caught: the run ends with it, the page shows the widgets before the
    refused one and nothing after: no button, no error box, no vector and
    no call of [predict]. *)
Theorem refused_widget_ends_run w m F M shown a rest e :
  youtube_revenue_model_joblib w = Returns m ->
  model_features_joblib w = Returns F ->
  feature_means_joblib w = Returns M ->
  form_widgets M = (shown ++ a :: rest)%list ->
  Forall (accepted w) shown ->
  widget w a = Raises e ->
  fst (run w) = Exc e /\
  rendered_inputs (trace (snd (run w))) = shown /\
  rendered_buttons (trace (snd (run w))) = [] /\
  rendered_errors (trace (snd (run w))) = [] /\
  predict_calls (trace (snd (run w))) = [] /\
  input_df (snd (run w)) = None.
Proof.
  intros Hm HF HM Hsplit Hshown Ha.
  pose proof (first_refused_split w shown a rest e Hshown Ha) as Href.
  rewrite <- Hsplit in Href.
  destruct (run_refused w m F M shown e Hm HF HM Href)
    as (U & tr' & -> & Hi & Hp & He & Hb & _).
  cbn [fst snd trace input_df]. read_trace. rewrite Hi, Hp, He, Hb.
  repeat split.
Qed.

Lemma refused_widget_ends_run_negative_likes :
  fst (run negative_likes_world) =
    Exc (StreamlitAPIException "The default value is outside the bounds.") /\
  rendered_inputs (trace (snd (run negative_likes_world))) =
    take 4 (form_widgets negative_likes_means) /\
  rendered_buttons (trace (snd (run negative_likes_world))) = [] /\
  rendered_errors (trace (snd (run negative_likes_world))) = [] /\
  predict_calls (trace (snd (run negative_likes_world))) = [] /\
  input_df (snd (run negative_likes_world)) = None.
Proof.
  apply (refused_widget_ends_run negative_likes_world (constant_model 42%Q)
           scenario_features negative_likes_means
           (take 4 (form_widgets negative_likes_means))
           (field_widget negative_likes_means ("Likes", None, 10%Q))
           (drop 5 (form_widgets negative_likes_means))).
  - reflexivity.
  - reflexivity.
  - reflexivity.
  - reflexivity.
  - unfold accepted. repeat constructor; eexists; vm_compute; reflexivity.
  - vm_compute. reflexivity.
Defined.

(** X9: the script runs to its last line exactly when the three artifacts
    load, the library accepts every widget, every expected feature has a
    mean and, if the button was pressed, [predict] does not raise an
    exception outside the [Exception] class. *)
Theorem run_finishes_iff w :
  fst (run w) = Ret tt <->
  exists m F M,
    youtube_revenue_model_joblib w = Returns m /\
    model_features_joblib w = Returns F /\
    feature_means_joblib w = Returns M /\
    Forall (accepted w) (form_widgets M) /\
    covers M F /\
    (clicked w "Predict Estimated Revenue" = true ->
     forall e, predict m (constructed M F (entered w M)) = Raises e ->
               isinstance e "Exception" = true).
Proof.
  split.
  - intros Hret.
    destruct (world_cases w) as [(a & e & Hfail) | (m & F & M & Hm & HF & HM & Hcase)].
    { destruct (run_load_failed w a e Hfail) as (m' & fs' & ms' & Hrun).
      rewrite Hrun in Hret. by destruct (isinstance e "FileNotFoundError"). }
    destruct Hcase as [(shown & e & Href) | [[Hacc Hc] | [Hacc Hc]]].
    { destruct (run_refused w m F M shown e Hm HF HM Href) as (U & tr' & Hrun & _).
      by rewrite Hrun in Hret. }
    { destruct (run_uncovered w m F M Hm HF HM Hacc Hc) as (f & _ & _ & Hrun).
      by rewrite Hrun in Hret. }
    exists m, F, M. repeat (split; [assumption |]).
    intros Hclick e He.
    rewrite (run_predict_raises w m F M e Hm HF HM Hacc Hc Hclick He) in Hret.
    by destruct (isinstance e "Exception").
  - intros (m & F & M & Hm & HF & HM & Hacc & Hc & Hexc).
    destruct (clicked w "Predict Estimated Revenue") eqn:Hclick.
    + destruct (predict m (constructed M F (entered w M))) as [[| y ys] | e] eqn:Hp.
      * by rewrite (run_predict_empty w m F M Hm HF HM Hacc Hc Hclick Hp).
      * by rewrite (run_predict_returns w m F M y ys Hm HF HM Hacc Hc Hclick Hp).
      * rewrite (run_predict_raises w m F M e Hm HF HM Hacc Hc Hclick Hp).
        by rewrite (Hexc eq_refl e eq_refl).
    + by rewrite (run_not_clicked w m F M Hm HF HM Hacc Hc Hclick).
Qed.

(** X10: [st.stop()] ends the run exactly when the first load that fails
    raises [FileNotFoundError]; no other path through the script stops it. *)
Theorem stopped_iff_file_not_found w :
  fst (run w) = Stop <->
  exists a e, first_failure w = Some (a, e) /\ isinstance e "FileNotFoundError" = true.
Proof.
  split.
  - intros Hstop.
    destruct (world_cases w) as [(a & e & Hfail) | (m & F & M & Hm & HF & HM & Hcase)].
    { exists a, e. split; [exact Hfail |].
      destruct (run_load_failed w a e Hfail) as (m' & fs' & ms' & Hrun).
      rewrite Hrun in Hstop. by destruct (isinstance e "FileNotFoundError"). }
    exfalso.
    destruct Hcase as [(shown & e & Href) | [[Hacc Hc] | [Hacc Hc]]].
    { destruct (run_refused w m F M shown e Hm HF HM Href) as (U & tr' & Hrun & _).
      by rewrite Hrun in Hstop. }
    { destruct (run_uncovered w m F M Hm HF HM Hacc Hc) as (f & _ & _ & Hrun).
      by rewrite Hrun in Hstop. }
    destruct (clicked w "Predict Estimated Revenue") eqn:Hclick.
    + destruct (predict m (constructed M F (entered w M))) as [[| y ys] | e] eqn:Hp.
      * by rewrite (run_predict_empty w m F M Hm HF HM Hacc Hc Hclick Hp) in Hstop.
      * by rewrite (run_predict_returns w m F M y ys Hm HF HM Hacc Hc Hclick Hp) in Hstop.
      * rewrite (run_predict_raises w m F M e Hm HF HM Hacc Hc Hclick Hp) in Hstop.
        by destruct (isinstance e "Exception").
    + by rewrite (run_not_clicked w m F M Hm HF HM Hacc Hc Hclick) in Hstop.
  - intros (a & e & Hfail & Hfnf).
    destruct (run_load_failed w a e Hfail) as (m' & fs' & ms' & Hrun).
    rewrite Hrun, Hfnf. done.
Qed.

Lemma load_events_readings l :
  rendered_inputs (map JoblibLoad l) = [] /\
  predict_calls (map JoblibLoad l) = [] /\
  rendered_errors (map JoblibLoad l) = [] /\
  rendered_buttons (map JoblibLoad l) = [] /\
  rendered_successes (map JoblibLoad l) = [].
Proof. induction l as [| f l IH]; [done |]. simpl. exact IH. Qed.

(** X11: the predict button is on the page exactly when the run reaches
    line 150, that is when the artifacts load, the library accepts every
    widget and every expected feature has a mean; otherwise no button is
    shown. *)
Theorem button_shown_iff w :
  (rendered_buttons (trace (snd (run w))) = ["Predict Estimated Revenue"] <->
   exists m F M,
     youtube_revenue_model_joblib w = Returns m /\
     model_features_joblib w = Returns F /\
     feature_means_joblib w = Returns M /\
     Forall (accepted w) (form_widgets M) /\
     covers M F) /\
  (rendered_buttons (trace (snd (run w))) = [] \/
   rendered_buttons (trace (snd (run w))) = ["Predict Estimated Revenue"]).
Proof.
  destruct (world_cases w) as [(a & e & Hfail) | (m & F & M & Hm & HF & HM & Hcase)].
  { assert (Hnone : rendered_buttons (trace (snd (run w))) = []).
    { destruct (run_load_failed w a e Hfail) as (m' & fs' & ms' & ->).
      cbn [snd trace]. read_trace.
      destruct (load_events_readings (map file_of (attempted w))) as (_ & _ & _ & -> & _).
      by destruct (isinstance e "FileNotFoundError"). }
    rewrite Hnone. split; [| by left]. split; [done |].
    intros (m & F & M & Hm & HF & HM & _).
    rewrite (first_failure_loaded w m F M Hm HF HM) in Hfail. done. }
  destruct Hcase as [(shown & e & Href) | [[Hacc Hc] | [Hacc Hc]]].
  { assert (Hnone : rendered_buttons (trace (snd (run w))) = []).
    { destruct (run_refused w m F M shown e Hm HF HM Href)
        as (U & tr' & -> & _ & _ & _ & Hb & _).
      cbn [snd trace]. read_trace. by rewrite Hb. }
    rewrite Hnone. split; [| by left]. split; [done |].
    intros (m1 & F1 & M1 & Hm1 & HF1 & HM1 & Hacc & _).
    rewrite HM in HM1. injection HM1 as <-.
    apply first_refused_None in Hacc. congruence. }
  { assert (Hnone : rendered_buttons (trace (snd (run w))) = []).
    { destruct (run_uncovered w m F M Hm HF HM Hacc Hc) as (f & _ & _ & ->).
      reflexivity. }
    rewrite Hnone. split; [| by left]. split; [done |].
    intros (m1 & F1 & M1 & Hm1 & HF1 & HM1 & _ & Hc1).
    rewrite HM in HM1. injection HM1 as <-. rewrite HF in HF1. injection HF1 as <-.
    done. }
  assert (Hshown : rendered_buttons (trace (snd (run w))) = ["Predict Estimated Revenue"]).
  { destruct (clicked w "Predict Estimated Revenue") eqn:Hclick.
    - destruct (predict m (constructed M F (entered w M))) as [[| y ys] | e] eqn:Hp.
      + rewrite (run_predict_empty w m F M Hm HF HM Hacc Hc Hclick Hp).
        cbn [snd trace]. read_trace. reflexivity.
      + rewrite (run_predict_returns w m F M y ys Hm HF HM Hacc Hc Hclick Hp).
        cbn [snd trace]. read_trace. reflexivity.
      + rewrite (run_predict_raises w m F M e Hm HF HM Hacc Hc Hclick Hp).
        destruct (isinstance e "Exception"); cbn [snd trace]; read_trace; reflexivity.
    - rewrite (run_not_clicked w m F M Hm HF HM Hacc Hc Hclick).
      cbn [snd trace]. read_trace. reflexivity. }
  rewrite Hshown. split; [| by right]. split; [| done].
  intros _. by exists m, F, M.
Qed.

(** X12: a run shows at most one error box, and the two kinds exclude each
    other: the missing-files box only on a run that [st.stop()] ended, the
    prediction error box only on a run that reached its last line after a
    press of the button. *)
Theorem at_most_one_error_box w :
  rendered_errors (trace (snd (run w))) = [] \/
  (rendered_errors (trace (snd (run w))) = [[Lit files_not_found_message]] /\
   fst (run w) = Stop) \/
  (exists e,
     isinstance e "Exception" = true /\
     rendered_errors (trace (snd (run w))) = [prediction_error e] /\
     fst (run w) = Ret tt /\
     clicked w "Predict Estimated Revenue" = true).
Proof.
  destruct (world_cases w) as [(a & e & Hfail) | (m & F & M & Hm & HF & HM & Hcase)].
  { destruct (run_load_failed w a e Hfail) as (m' & fs' & ms' & ->).
    cbn [fst snd trace]. read_trace.
    destruct (load_events_readings (map file_of (attempted w))) as (_ & _ & -> & _).
    destruct (isinstance e "FileNotFoundError"); [right; left | left]; done. }
  destruct Hcase as [(shown & e & Href) | [[Hacc Hc] | [Hacc Hc]]].
  { left. destruct (run_refused w m F M shown e Hm HF HM Href)
      as (U & tr' & -> & _ & _ & He & _).
    cbn [snd trace]. read_trace. by rewrite He. }
  { left. destruct (run_uncovered w m F M Hm HF HM Hacc Hc) as (f & _ & _ & ->).
    reflexivity. }
  destruct (clicked w "Predict Estimated Revenue") eqn:Hclick.
  - destruct (predict m (constructed M F (entered w M))) as [[| y ys] | e] eqn:Hp.
    + right. right. eexists.
      rewrite (run_predict_empty w m F M Hm HF HM Hacc Hc Hclick Hp).
      cbn [fst snd trace]. read_trace.
      split; [| split; [reflexivity | done]]. reflexivity.
    + left. rewrite (run_predict_returns w m F M y ys Hm HF HM Hacc Hc Hclick Hp).
      cbn [snd trace]. read_trace. reflexivity.
    + rewrite (run_predict_raises w m F M e Hm HF HM Hacc Hc Hclick Hp).
      destruct (isinstance e "Exception") eqn:Hexc.
      * right. right. exists e. cbn [fst snd trace]. read_trace.
        split; [exact Hexc |]. split; [reflexivity | done].
      * left. cbn [snd trace]. read_trace. reflexivity.
  - left. rewrite (run_not_clicked w m F M Hm HF HM Hacc Hc Hclick).
    cbn [snd trace]. read_trace. reflexivity.
Qed.



(** X14: the box "Model and features loaded successfully!" is on the page
    exactly when all three loads succeeded; after a failed load the page
    has no success box at all. *)
Theorem loaded_message_iff w :
  (loaded_message ∈ rendered_successes (trace (snd (run w))) <->
   first_failure w = None) /\
  (first_failure w <> None -> rendered_successes (trace (snd (run w))) = []).
Proof.
  destruct (world_cases w) as [(a & e & Hfail) | (m & F & M & Hm & HF & HM & Hcase)].
  { assert (Hnone : rendered_successes (trace (snd (run w))) = []).
    { destruct (run_load_failed w a e Hfail) as (m' & fs' & ms' & ->).
      cbn [snd trace]. read_trace.
      destruct (load_events_readings (map file_of (attempted w))) as (_ & _ & _ & _ & ->).
      by destruct (isinstance e "FileNotFoundError"). }
    rewrite Hnone, Hfail. split; [| done]. split; [| done].
    intros Hin. by apply elem_of_nil in Hin. }
  rewrite (first_failure_loaded w m F M Hm HF HM). split; [| done]. split; [done |].
  intros _.
  destruct Hcase as [(shown & e & Href) | [[Hacc Hc] | [Hacc Hc]]].
  { destruct (run_refused w m F M shown e Hm HF HM Href)
      as (U & tr' & -> & _ & _ & _ & _ & Hs & _).
    cbn [snd trace]. read_trace. rewrite Hs. by left. }
  { destruct (run_uncovered w m F M Hm HF HM Hacc Hc) as (f & _ & _ & ->).
    by left. }
  destruct (clicked w "Predict Estimated Revenue") eqn:Hclick.
  - destruct (predict m (constructed M F (entered w M))) as [[| y ys] | e] eqn:Hp.
    + rewrite (run_predict_empty w m F M Hm HF HM Hacc Hc Hclick Hp).
      cbn [snd trace]. read_trace. by left.
    + rewrite (run_predict_returns w m F M y ys Hm HF HM Hacc Hc Hclick Hp).
      cbn [snd trace]. read_trace. by left.
    + rewrite (run_predict_raises w m F M e Hm HF HM Hacc Hc Hclick Hp).
      destruct (isinstance e "Exception"); cbn [snd trace]; read_trace; by left.
  - rewrite (run_not_clicked w m F M Hm HF HM Hacc Hc Hclick).
    cbn [snd trace]. read_trace. by left.
Qed.
